(** * WdaProxyClient: geometry transform, request correlation and
      connection lifecycle

    A shallow embedding of [src/app/applDevice/client/WdaProxyClient.ts].

    The client is a single-threaded, callback-driven object.  Its fields
    become a record, every method becomes a function on that record, and
    everything the client does to the outside world (frames written to the
    transport, emitted events, armed timers, settled promises) is appended
    to a trace kept in the record. *)

From Stdlib Require Import ZArith QArith Qround.
From stdpp Require Import base gmap strings list fin_maps pretty.

Set Default Proof Using "Type".

(** ** JavaScript numbers

    Coordinates, sizes and the screen width are JS [number]s (IEEE-754
    doubles).  The geometry code only combines them with [-], [+], [*],
    [/], [>=], [Math.round] and a truthiness test, so the embedding is
    parametric in those operations: whatever is proved holds for doubles
    as well as for the exact rationals used to evaluate examples. *)

Class JsNumber (number : Type) : Type := {
  num_add : number -> number -> number;
  num_sub : number -> number -> number;
  num_mul : number -> number -> number;
  num_div : number -> number -> number;
  (** [Math.round] *)
  num_round : number -> number;
  (** [a >= b] *)
  num_ge : number -> number -> bool;
  (** [ToBoolean]: false for [0] and [NaN] *)
  num_truthy : number -> bool;
  (** the literal [0] *)
  num_zero : number
}.

Declare Scope js_scope.
Delimit Scope js_scope with js.
Infix "+" := num_add : js_scope.
Infix "-" := num_sub : js_scope.
Infix "*" := num_mul : js_scope.
Infix "/" := num_div : js_scope.
Infix ">=?" := num_ge (at level 70) : js_scope.

(** ** Data classes imported by the client

    [Point], [Size], [Rect], [Position] and [ScreenInfo] are declared in
    other files of the application; the client reads their fields and
    calls four of their methods. *)

Module Point.
Record t (number : Type) : Type := mk { x : number; y : number }.
Arguments mk {number}.
Arguments x {number}.
Arguments y {number}.
End Point.

Module Size.
Record t (number : Type) : Type := mk { width : number; height : number }.
Arguments mk {number}.
Arguments width {number}.
Arguments height {number}.
End Size.

Module Rect.
Record t (number : Type) : Type :=
  mk { left : number; top : number; right : number; bottom : number }.
Arguments mk {number}.
Arguments left {number}.
Arguments top {number}.
Arguments right {number}.
Arguments bottom {number}.
End Rect.

Module Position.
Record t (number : Type) : Type :=
  mk { point : Point.t number; screenSize : Size.t number }.
Arguments mk {number}.
Arguments point {number}.
Arguments screenSize {number}.
End Position.

(** Modelled from the spec: the declaration of the device rotation is not
    part of the client file; the screen descriptor carries a "device
    rotation (one of four orthogonal states)". *)
Inductive Rotation : Type := ROT_0 | ROT_90 | ROT_180 | ROT_270.

Module ScreenInfo.
Record t (number : Type) : Type :=
  mk { contentRect : Rect.t number;
       videoSize : Size.t number;
       deviceRotation : Rotation }.
Arguments mk {number}.
Arguments contentRect {number}.
Arguments videoSize {number}.
Arguments deviceRotation {number}.
End ScreenInfo.

(** The methods of the imported classes that [calculatePhysicalPoint]
    calls.  Their bodies live outside the client file, so they are taken
    as parameters. *)
Class ScreenGeometry (number : Type) : Type := {
  (** [Size.equals] *)
  Size_equals : Size.t number -> Size.t number -> bool;
  (** [Rect.getWidth] *)
  Rect_getWidth : Rect.t number -> number;
  (** [Rect.getHeight] *)
  Rect_getHeight : Rect.t number -> number;
  (** [Position.rotate] *)
  Position_rotate : Rotation -> Position.t number -> Position.t number
}.

(** ** The geometry transform *)

Section Geometry.
Context {number : Type} `{!JsNumber number} `{!ScreenGeometry number}.

Local Open Scope js_scope.

(** [WdaProxyClient.calculatePhysicalPoint]; [None] is the bare [return]
    (the caller sees [undefined]). *)
Definition calculatePhysicalPoint (screenInfo : ScreenInfo.t number)
    (screenWidth : number) (position : Position.t number)
    : option (Point.t number) :=
  let videoSize := ScreenInfo.videoSize screenInfo in
  let deviceRotation := ScreenInfo.deviceRotation screenInfo in
  let contentRect := ScreenInfo.contentRect screenInfo in
  let right := Rect.right contentRect in
  let left := Rect.left contentRect in
  let bottom := Rect.bottom contentRect in
  let top := Rect.top contentRect in
  let shortSide :=
    if Size.width videoSize >=? Size.height videoSize
    then bottom - top
    else right - left in
  let scale := shortSide / screenWidth in
  let devicePosition := Position_rotate deviceRotation position in
  if negb (Size_equals videoSize (Position.screenSize devicePosition))
  then None
  else
    let point := Position.point devicePosition in
    let convertedX :=
      Rect.left contentRect
      + (Point.x point * Rect_getWidth contentRect) / Size.width videoSize in
    let convertedY :=
      Rect.top contentRect
      + (Point.y point * Rect_getHeight contentRect) / Size.height videoSize in
    let scaledX := num_round (convertedX / scale) in
    let scaledY := num_round (convertedY / scale) in
    Some (Point.mk scaledX scaledY).

(** *** The transform as the specification words it

    Step 1: the short side of the content rectangle. *)
Definition spec_shortSide (si : ScreenInfo.t number) : number :=
  let r := ScreenInfo.contentRect si in
  let v := ScreenInfo.videoSize si in
  if Size.width v >=? Size.height v
  then Rect.bottom r - Rect.top r
  else Rect.right r - Rect.left r.

(** Step 2: [scale = shortSide / screenWidth]. *)
Definition spec_scale (si : ScreenInfo.t number) (screenWidth : number)
    : number :=
  spec_shortSide si / screenWidth.

(** Step 3: the input point rotated by the device rotation. *)
Definition spec_rotated (si : ScreenInfo.t number) (p : Position.t number)
    : Position.t number :=
  Position_rotate (ScreenInfo.deviceRotation si) p.

(** Step 5: [x' = contentRect.left + x * contentRectWidth / videoWidth],
    and the same for [y]. *)
Definition spec_mapX (si : ScreenInfo.t number) (x : number) : number :=
  let r := ScreenInfo.contentRect si in
  Rect.left r + x * Rect_getWidth r / Size.width (ScreenInfo.videoSize si).

Definition spec_mapY (si : ScreenInfo.t number) (y : number) : number :=
  let r := ScreenInfo.contentRect si in
  Rect.top r + y * Rect_getHeight r / Size.height (ScreenInfo.videoSize si).

(** Step 6: divide by the scale and round, on both axes. *)
Definition spec_physicalPoint (si : ScreenInfo.t number)
    (screenWidth : number) (p : Position.t number) : Point.t number :=
  let q := Position.point (spec_rotated si p) in
  Point.mk
    (num_round (spec_mapX si (Point.x q) / spec_scale si screenWidth))
    (num_round (spec_mapY si (Point.y q) / spec_scale si screenWidth)).

End Geometry.

(** ** Messages

    Modelled from the spec: the constants of [ControlCenterCommand] and
    [WDAMethod] are declared outside the client file.  The client uses the
    command kinds "start-session" and "generic-device-request" and the
    methods for the screen-width query, button press, click and scroll;
    every other value of the string-typed field is kept as is. *)
Inductive ControlCenterCommand : Type :=
| RUN_WDA
| REQUEST_WDA
| OTHER_COMMAND (name : string).

Inductive WDAMethod : Type :=
| GET_SCREEN_WIDTH
| PRESS_BUTTON
| CLICK
| SCROLL
| OTHER_METHOD (name : string).

(** The [args] of a device request ([args?: any]). *)
Inductive Args (number : Type) : Type :=
| NoArgs
| ButtonArgs (name : string)
| ClickArgs (x y : number)
| ScrollArgs (from to : Point.t number)
| OtherArgs (raw : string).
Arguments NoArgs {number}.
Arguments ButtonArgs {number}.
Arguments ClickArgs {number}.
Arguments ScrollArgs {number}.
Arguments OtherArgs {number}.

(** The [data] of a message ([data: any]): the two shapes the client
    builds, and for a reply what the client reads of it: the truthiness of
    [data.success] and [data.response] when [typeof] says it is a
    number.  [NoData] is a message whose [data] is absent or [null]:
    reading a property of it throws a [TypeError]. *)
Inductive Data (number : Type) : Type :=
| RunData (udid : string)
| WdaData (method : WDAMethod) (args : Args number)
| ResultData (success : bool) (response : option number)
| NoData.
Arguments RunData {number}.
Arguments WdaData {number}.
Arguments ResultData {number}.
Arguments NoData {number}.

Module Message.
Record t (number : Type) : Type :=
  mk { id : Z; type : ControlCenterCommand; data : Data number }.
Arguments mk {number}.
Arguments id {number}.
Arguments type {number}.
Arguments data {number}.
End Message.

(** [JSON.stringify] on messages. *)
Class JsonText (number : Type) : Type := {
  JSON_stringify : Message.t number -> string
}.

(** ** Promises and suspended callers

    Every public [async] method hands a promise to its caller; the caller
    is named by a [Promise] handle and the trace records how the promise
    settles. *)
Definition Promise : Type := nat.

Inductive Error : Type :=
| NoSession          (* Error('No session') *)
| InvalidResponse    (* Error('Invalid response') *)
| TypeError.

Inductive Value (number : Type) : Type :=
| Void
| Reply (m : Message.t number).
Arguments Void {number}.
Arguments Reply {number}.

Inductive Outcome (number : Type) : Type :=
| Fulfilled (v : Value number)
| Rejected (e : Error).
Arguments Fulfilled {number}.
Arguments Rejected {number}.

(** What [performClick] and [performScroll] still have to do once
    [getScreenWidth] has produced the width. *)
Inductive Resume (number : Type) : Type :=
| ThenClick (p : Promise) (position : Position.t number)
| ThenScroll (p : Promise) (from to : Position.t number).
Arguments ThenClick {number}.
Arguments ThenScroll {number}.

(** A Pending Request Entry: the [resolve] stored in [wait], named by the
    code that is suspended on the promise of [sendMessage]. *)
Inductive Waiter (number : Type) : Type :=
| AwaitRunWda (p : Promise)            (* runWebDriverAgent, at its await *)
| AwaitRequest (p : Promise)           (* a caller of requestWebDriverAgent *)
| AwaitScreenWidth (k : Resume number) (* getScreenWidth, at its await *).
Arguments AwaitRunWda {number}.
Arguments AwaitRequest {number}.
Arguments AwaitScreenWidth {number}.

(** ** The transport and what the client does to its surroundings *)

Inductive ReadyState : Type := CONNECTING | OPEN | CLOSING | CLOSED.

Inductive Effect (number : Type) : Type :=
| WsSend (str : string)                 (* this.ws.send(str) *)
| WsClose                               (* this.ws.close() *)
| EmitConnected (connected : bool)      (* this.emit('connected', ..) *)
| EmitWdaStatus (m : Message.t number)  (* this.emit('wda-status', ..) *)
| SetTimeout                            (* reconnect armed, 2000 ms *)
| OpenNewConnection                     (* this.openNewConnection() *)
| ConsoleLog
| ConsoleError
| Settle (p : Promise) (o : Outcome number).
Arguments WsSend {number}.
Arguments WsClose {number}.
Arguments EmitConnected {number}.
Arguments EmitWdaStatus {number}.
Arguments SetTimeout {number}.
Arguments OpenNewConnection {number}.
Arguments ConsoleLog {number}.
Arguments ConsoleError {number}.
Arguments Settle {number}.

(** ** The client object

    The private fields of the class, then the state of its surroundings
    that the methods read or change: [ws] is the ready state of
    [this.ws] ([None] while there is no transport), [timers] counts the
    reconnect timers that are armed, [jobs] holds the promise reactions
    that are due (a resolved entry with the message it was resolved with),
    and [trace] lists the effects so far, oldest first.

    [messageId] counts requests; it is an integer far below [2^53], where
    JS numbers are exact, and is modelled as an integer. *)
Record Client (number : Type) : Type := mkClient {
  screenInfo : option (ScreenInfo.t number);
  screenWidth : number;
  udid : string;
  stopped : bool;
  commands : list string;
  hasSession : bool;
  messageId : Z;
  wait : gmap Z (Waiter number);
  ws : option ReadyState;
  timers : nat;
  jobs : list (Waiter number * Message.t number);
  trace : list (Effect number)
}.
Arguments mkClient {number}.
Arguments screenInfo {number}.
Arguments screenWidth {number}.
Arguments udid {number}.
Arguments stopped {number}.
Arguments commands {number}.
Arguments hasSession {number}.
Arguments messageId {number}.
Arguments wait {number}.
Arguments ws {number}.
Arguments timers {number}.
Arguments jobs {number}.
Arguments trace {number}.

Section FieldUpdates.
Context {number : Type}.
Implicit Types st : Client number.

Definition set_screenInfo (v : option (ScreenInfo.t number)) st :=
  mkClient v (screenWidth st) (udid st) (stopped st) (commands st)
    (hasSession st) (messageId st) (wait st) (ws st) (timers st) (jobs st)
    (trace st).
Definition set_screenWidth (v : number) st :=
  mkClient (screenInfo st) v (udid st) (stopped st) (commands st)
    (hasSession st) (messageId st) (wait st) (ws st) (timers st) (jobs st)
    (trace st).
Definition set_udid (v : string) st :=
  mkClient (screenInfo st) (screenWidth st) v (stopped st) (commands st)
    (hasSession st) (messageId st) (wait st) (ws st) (timers st) (jobs st)
    (trace st).
Definition set_stopped (v : bool) st :=
  mkClient (screenInfo st) (screenWidth st) (udid st) v (commands st)
    (hasSession st) (messageId st) (wait st) (ws st) (timers st) (jobs st)
    (trace st).
Definition set_commands (v : list string) st :=
  mkClient (screenInfo st) (screenWidth st) (udid st) (stopped st) v
    (hasSession st) (messageId st) (wait st) (ws st) (timers st) (jobs st)
    (trace st).
Definition set_hasSession (v : bool) st :=
  mkClient (screenInfo st) (screenWidth st) (udid st) (stopped st)
    (commands st) v (messageId st) (wait st) (ws st) (timers st) (jobs st)
    (trace st).
Definition set_messageId (v : Z) st :=
  mkClient (screenInfo st) (screenWidth st) (udid st) (stopped st)
    (commands st) (hasSession st) v (wait st) (ws st) (timers st) (jobs st)
    (trace st).
Definition set_wait (v : gmap Z (Waiter number)) st :=
  mkClient (screenInfo st) (screenWidth st) (udid st) (stopped st)
    (commands st) (hasSession st) (messageId st) v (ws st) (timers st)
    (jobs st) (trace st).
Definition set_ws (v : option ReadyState) st :=
  mkClient (screenInfo st) (screenWidth st) (udid st) (stopped st)
    (commands st) (hasSession st) (messageId st) (wait st) v (timers st)
    (jobs st) (trace st).
Definition set_timers (v : nat) st :=
  mkClient (screenInfo st) (screenWidth st) (udid st) (stopped st)
    (commands st) (hasSession st) (messageId st) (wait st) (ws st) v
    (jobs st) (trace st).
Definition set_jobs (v : list (Waiter number * Message.t number)) st :=
  mkClient (screenInfo st) (screenWidth st) (udid st) (stopped st)
    (commands st) (hasSession st) (messageId st) (wait st) (ws st)
    (timers st) v (trace st).
Definition set_trace (v : list (Effect number)) st :=
  mkClient (screenInfo st) (screenWidth st) (udid st) (stopped st)
    (commands st) (hasSession st) (messageId st) (wait st) (ws st)
    (timers st) (jobs st) v.

End FieldUpdates.

(** ** The methods of the client *)

Section Client.
Context {number : Type} `{!JsNumber number} `{!ScreenGeometry number}
  `{!JsonText number}.
Implicit Types st : Client number.

(** Truthiness of a string: only the empty string is falsy. *)
Definition str_truthy (str : string) : bool :=
  match str with
  | EmptyString => false
  | String _ _ => true
  end.

(** [this.ws && this.ws.readyState === this.ws.OPEN] *)
Definition is_open st : bool :=
  match ws st with
  | Some OPEN => true
  | _ => false
  end.

Definition log (e : Effect number) st : Client number :=
  set_trace (trace st ++ [e]) st.

(** A promise handed to a caller settles. *)
Definition settle (p : Promise) (o : Outcome number) st : Client number :=
  log (Settle p o) st.

(** Modelled from the spec: [openNewConnection] is inherited from the
    base class [ManagerClient], which is not part of the client file;
    "[open()]: establishes a new connection attempt to the configured
    endpoint".  The new transport starts out connecting. *)
Definition openNewConnection st : Client number :=
  set_ws (Some CONNECTING) (log OpenNewConnection st).

(** The field initialisers and the constructor. *)
Definition constructor (params_udid : string) : Client number :=
  let fresh :=
    mkClient None num_zero EmptyString false [] false 0%Z ∅ None 0%nat [] [] in
  set_udid params_udid (openNewConnection fresh).

(** [sendCommand] *)
Definition sendCommand (str : string) st : Client number :=
  if is_open st
  then log (WsSend str) st
  else set_commands (commands st ++ [str]) st.

(** [onSocketClose] *)
Definition onSocketClose st : Client number :=
  let st1 := log (EmitConnected false) st in
  let st2 := log ConsoleLog st1 in
  if negb (stopped st2)
  then set_timers (S (timers st2)) (log SetTimeout st2)
  else st2.

(** The loop of [onSocketOpen].  Each round shifts one string off
    [commands] and hands it to [sendCommand] unless it is falsy.  The
    loop is bounded by [fuel]; [None] means the bound was hit. *)
Fixpoint flush (fuel : nat) st : option (Client number) :=
  match commands st with
  | [] => Some st
  | str :: rest =>
      match fuel with
      | O => None
      | S fuel' =>
          let st1 := set_commands rest st in
          flush fuel' (if str_truthy str then sendCommand str st1 else st1)
      end
  end.

(** [onSocketOpen], with one round per queued string: enough whenever
    the loop ends at all, since a round that does not shorten the queue
    leaves it as it was. *)
Definition onSocketOpen st : option (Client number) :=
  let st1 := log (EmitConnected true) st in
  flush (length (commands st1)) st1.

(** [onSocketMessage], from the point where the text of the frame is
    available.  [None] is a text that [JSON.parse] rejects.  [p.resolve]
    makes the reaction of the suspended caller due; it runs in [drain]. *)
Definition onSocketMessage (text : option (Message.t number)) st
    : Client number :=
  match text with
  | None => log ConsoleLog (log ConsoleError st)
  | Some json =>
      let id := Message.id json in
      match wait st !! id with
      | Some p =>
          let st1 := set_wait (delete id (wait st)) st in
          set_jobs (jobs st1 ++ [(p, json)]) st1
      | None =>
          match Message.type json with
          | RUN_WDA => log (EmitWdaStatus json) st
          | _ => log ConsoleLog (log ConsoleError st)
          end
      end
  end.

(** [getNextId]: [++this.messageId] *)
Definition getNextId st : Z * Client number :=
  let next := (messageId st + 1)%Z in
  (next, set_messageId next st).

(** [sendMessage]; [w] names the code that awaits the returned promise. *)
Definition sendMessage (message : Message.t number) (w : Waiter number) st
    : Client number :=
  let st1 := sendCommand (JSON_stringify message) st in
  set_wait (<[Message.id message := w]> (wait st1)) st1.

(** [setScreenInfo] *)
Definition setScreenInfo (info : ScreenInfo.t number) st : Client number :=
  set_screenInfo (Some info) st.

(** [runWebDriverAgent] up to its [await]. *)
Definition runWebDriverAgent (p : Promise) st : Client number :=
  let '(id, st1) := getNextId st in
  let message := Message.mk id RUN_WDA (RunData (udid st1)) in
  sendMessage message (AwaitRunWda p) st1.

(** [requestWebDriverAgent]: [inl] is the thrown error. *)
Definition requestWebDriverAgent (method : WDAMethod) (args : Args number)
    (w : Waiter number) st : Error + Client number :=
  if negb (hasSession st)
  then inl NoSession
  else
    let '(id, st1) := getNextId st in
    let message := Message.mk id REQUEST_WDA (WdaData method args) in
    inr (sendMessage message w st1).

(** [requestWebDriverAgent] called by the holder of promise [p], or
    returned from an [async] method whose promise is [p]. *)
Definition request_for (p : Promise) (method : WDAMethod)
    (args : Args number) st : Client number :=
  match requestWebDriverAgent method args (AwaitRequest p) st with
  | inl e => settle p (Rejected e) st
  | inr st' => st'
  end.

(** [pressButton] *)
Definition pressButton (p : Promise) (name : string) st : Client number :=
  request_for p PRESS_BUTTON (ButtonArgs name) st.

(** The outcome of [await this.getScreenWidth()]. *)
Inductive Awaited : Type :=
| Ready (width : number)
| Pending (st : Client number)
| Thrown (e : Error).

(** [getScreenWidth] up to its [await]. *)
Definition getScreenWidth (k : Resume number) st : Awaited :=
  if num_truthy (screenWidth st)
  then Ready (screenWidth st)
  else
    match requestWebDriverAgent GET_SCREEN_WIDTH NoArgs (AwaitScreenWidth k) st
    with
    | inl e => Thrown e
    | inr st' => Pending st'
    end.

(** [performClick] from the call of [calculatePhysicalPoint] on. *)
Definition performClick_rest (p : Promise) (position : Position.t number)
    (width : number) st : Client number :=
  match screenInfo st with
  | None => settle p (Rejected TypeError) st
  | Some info =>
      match calculatePhysicalPoint info width position with
      | None => settle p (Fulfilled Void) st
      | Some point =>
          request_for p CLICK (ClickArgs (Point.x point) (Point.y point)) st
      end
  end.

(** [performClick] *)
Definition performClick (p : Promise) (position : Position.t number) st
    : Client number :=
  match screenInfo st with
  | None => settle p (Fulfilled Void) st
  | Some _ =>
      if num_truthy (screenWidth st)
      then performClick_rest p position (screenWidth st) st
      else
        match getScreenWidth (ThenClick p position) st with
        | Ready width => performClick_rest p position width st
        | Pending st' => st'
        | Thrown e => settle p (Rejected e) st
        end
  end.

(** [performScroll] from the calls of [calculatePhysicalPoint] on. *)
Definition performScroll_rest (p : Promise) (from to : Position.t number)
    (wdaScreen : number) st : Client number :=
  match screenInfo st with
  | None => settle p (Rejected TypeError) st
  | Some info =>
      match calculatePhysicalPoint info wdaScreen from,
            calculatePhysicalPoint info wdaScreen to with
      | Some fromPoint, Some toPoint =>
          request_for p SCROLL (ScrollArgs fromPoint toPoint) st
      | _, _ => settle p (Fulfilled Void) st
      end
  end.

(** [performScroll] *)
Definition performScroll (p : Promise) (from to : Position.t number) st
    : Client number :=
  match screenInfo st with
  | None => settle p (Fulfilled Void) st
  | Some _ =>
      if num_truthy (screenWidth st)
      then performScroll_rest p from to (screenWidth st) st
      else
        match getScreenWidth (ThenScroll p from to) st with
        | Ready width => performScroll_rest p from to width st
        | Pending st' => st'
        | Thrown e => settle p (Rejected e) st
        end
  end.

(** The promise of the method that a [Resume] belongs to. *)
Definition promise_of (k : Resume number) : Promise :=
  match k with
  | ThenClick p _ => p
  | ThenScroll p _ _ => p
  end.

(** [getScreenWidth] after its [await], followed by the method that
    was waiting for the width.  [temp.data.success] throws when the reply
    has no [data]; otherwise a reply that does not report success with a
    number ends in [Error('Invalid response')]. *)
Definition getScreenWidth_rest (temp : Message.t number) (k : Resume number)
    st : Client number :=
  match Message.data temp with
  | NoData => settle (promise_of k) (Rejected TypeError) st
  | ResultData true (Some width) =>
      let st1 := set_screenWidth width st in
      match k with
      | ThenClick p position => performClick_rest p position width st1
      | ThenScroll p from to => performScroll_rest p from to width st1
      end
  | _ => settle (promise_of k) (Rejected InvalidResponse) st
  end.

(** The reaction to a resolved entry: the code after the [await]. *)
Definition react (job : Waiter number * Message.t number) st
    : Client number :=
  let '(w, response) := job in
  match w with
  | AwaitRunWda p =>
      settle p (Fulfilled (Reply response)) (set_hasSession true st)
  | AwaitRequest p => settle p (Fulfilled (Reply response)) st
  | AwaitScreenWidth k => getScreenWidth_rest response k st
  end.

(** All due reactions run, oldest first, before the next event. *)
Definition drain st : Client number :=
  fold_left (fun s job => react job s) (jobs st) (set_jobs [] st).

(** [stop]; closing an open transport leaves it in the closing state. *)
Definition stop st : Client number :=
  if stopped st
  then st
  else
    let st1 := set_stopped true st in
    if is_open st1
    then set_ws (Some CLOSING) (log WsClose st1)
    else st1.

(** ** Runs of the client

    What can happen to a client: the transport opens, closes or delivers
    a text frame, an armed reconnect timer fires, or the application calls
    a method.  [Call] lists the public methods that build their own
    messages: they reach [sendMessage] through [runWebDriverAgent] and
    [requestWebDriverAgent], which hand it a message carrying the
    identifier just taken from [getNextId].  [sendMessage] is public as
    well; a direct call of it, with a message and an identifier of the
    caller's choice, is the action [CallSendMessage] of the wider runs
    [run_all] below. *)
Inductive Call : Type :=
| CallRunWebDriverAgent (p : Promise)
| CallRequestWebDriverAgent (p : Promise) (method : WDAMethod)
    (args : Args number)
| CallPressButton (p : Promise) (name : string)
| CallPerformClick (p : Promise) (position : Position.t number)
| CallPerformScroll (p : Promise) (from to : Position.t number)
| CallSetScreenInfo (info : ScreenInfo.t number)
| CallStop.

Inductive Event : Type :=
| SocketOpen
| SocketClose
| SocketMessage (text : option (Message.t number))
| TimerFired
| Invoke (c : Call).

Definition call (c : Call) st : Client number :=
  match c with
  | CallRunWebDriverAgent p => runWebDriverAgent p st
  | CallRequestWebDriverAgent p method args => request_for p method args st
  | CallPressButton p name => pressButton p name st
  | CallPerformClick p position => performClick p position st
  | CallPerformScroll p from to => performScroll p from to st
  | CallSetScreenInfo info => setScreenInfo info st
  | CallStop => stop st
  end.

(** The handler an event runs.  An event that the transport cannot
    produce in its current state does not happen: only a connecting
    transport opens, only an open or closing one delivers frames, only
    one that is not closed yet closes, and only an armed timer fires. *)
Definition handle (ev : Event) st : option (Client number) :=
  match ev with
  | SocketOpen =>
      match ws st with
      | Some CONNECTING => onSocketOpen (set_ws (Some OPEN) st)
      | _ => Some st
      end
  | SocketClose =>
      match ws st with
      | Some CLOSED | None => Some st
      | Some _ => Some (onSocketClose (set_ws (Some CLOSED) st))
      end
  | SocketMessage text =>
      match ws st with
      | Some OPEN | Some CLOSING => Some (onSocketMessage text st)
      | _ => Some st
      end
  | TimerFired =>
      match timers st with
      | O => Some st
      | S n => Some (openNewConnection (set_timers n st))
      end
  | Invoke c => Some (call c st)
  end.

(** One event: its handler, then the reactions it made due. *)
Definition step (ev : Event) st : option (Client number) :=
  match handle ev st with
  | Some st' => Some (drain st')
  | None => None
  end.

Fixpoint run (evs : list Event) st : option (Client number) :=
  match evs with
  | [] => Some st
  | ev :: evs' =>
      match step ev st with
      | Some st' => run evs' st'
      | None => None
      end
  end.

End Client.

Arguments Awaited : clear implicits.
Arguments Call : clear implicits.
Arguments Event : clear implicits.
(** ** Predicates on client states *)

Section Predicates.
Context {number : Type}.
Implicit Types st : Client number.

(** How a client may differ from an earlier state of itself: the session
    flag and the stopped flag are never cleared, the request counter never
    goes back, an entry of [wait] is either an old one or sits under an
    identifier issued in between, and the trace only grows, without a
    reconnect timer once the client was stopped. *)
Definition evolves st st' : Prop :=
  (hasSession st = true -> hasSession st' = true)
  /\ (stopped st = true -> stopped st' = true)
  /\ (messageId st <= messageId st')%Z
  /\ (forall k : Z, is_Some (wait st' !! k) ->
        is_Some (wait st !! k) \/ (messageId st < k <= messageId st')%Z)
  /\ (exists sfx, trace st' = trace st ++ sfx
        /\ (stopped st = true -> SetTimeout ∉ sfx)).

(** Every pending entry sits under an identifier that was issued. *)
Definition wait_bounded st : Prop :=
  forall k : Z, is_Some (wait st !! k) -> (k <= messageId st)%Z.

End Predicates.

From Stdlib Require Strings.Byte Strings.String.

(** ** The channel handshake

    [getChannelInitData] fills a [Buffer], a byte array of fixed length
    that is written in place; here each write returns the array it
    leaves.  A write that the [Buffer] rejects throws a [RangeError],
    modelled by [None]. *)

(** What the method takes from outside the client file: the channel code
    [ChannelCode.WDAP], a string of one-byte characters;
    [Util.stringToUtf8ByteArray]; and the largest length a [Buffer] may
    have on the platform ([buffer.constants.MAX_LENGTH]). *)
Class ChannelHost : Type := {
  WDAP : string;
  stringToUtf8ByteArray : string -> list Byte.byte;
  MAX_LENGTH : Z
}.

(** The low eight bits of an integer, as a byte. *)
Definition uint8 (z : Z) : Byte.byte :=
  default Byte.x00 (Byte.of_N (Z.to_N (z mod 256))).

(** The four bytes of an unsigned 32-bit integer, lowest first. *)
Definition uint32_le (value : Z) : list Byte.byte :=
  [uint8 value; uint8 (value ≫ 8); uint8 (value ≫ 16); uint8 (value ≫ 24)].

(** The integer that four bytes spell, lowest first. *)
Definition le_value (bytes : list Byte.byte) : Z :=
  foldr (fun b acc => Z.of_N (Byte.to_N b) + 256 * acc)%Z 0%Z bytes.

Section Channel.
Context `{!ChannelHost}.

(** [Buffer.alloc(size)]: zero-filled. *)
Definition Buffer_alloc (size : nat) : option (list Byte.byte) :=
  if (Z.of_nat size <=? MAX_LENGTH)%Z
  then Some (replicate size Byte.x00)
  else None.

(** [buffer.write(string, 'ascii')]: from offset [0], one byte per
    character, as many as fit. *)
Definition Buffer_write_ascii (str : string) (buffer : list Byte.byte)
    : list Byte.byte :=
  list_inserts 0 (take (length buffer) (String.list_byte_of_string str)) buffer.

(** [buffer.writeUInt32LE(value, offset)] *)
Definition Buffer_writeUInt32LE (value : Z) (offset : nat)
    (buffer : list Byte.byte) : option (list Byte.byte) :=
  if bool_decide (0 <= value <= 4294967295)%Z
     && bool_decide (offset + 4 <= length buffer)
  then Some (list_inserts offset (uint32_le value) buffer)
  else None.

(** [buffer.readUInt32LE(offset)] *)
Definition Buffer_readUInt32LE (offset : nat) (buffer : list Byte.byte)
    : option Z :=
  if bool_decide (offset + 4 <= length buffer)
  then Some (le_value (take 4 (drop offset buffer)))
  else None.

(** [buffer.set(array, offset)] *)
Definition Buffer_set (array : list Byte.byte) (offset : nat)
    (buffer : list Byte.byte) : option (list Byte.byte) :=
  if bool_decide (offset + length array <= length buffer)
  then Some (list_inserts offset array buffer)
  else None.

(** [getChannelInitData], for the [udid] of [this.params]. *)
Definition getChannelInitData (params_udid : string) : option (list Byte.byte) :=
  let udid := stringToUtf8ByteArray params_udid in
  buffer ← Buffer_alloc (4 + 4 + length udid);
  let buffer := Buffer_write_ascii WDAP buffer in
  buffer ← Buffer_writeUInt32LE (Z.of_nat (length udid)) 4 buffer;
  Buffer_set udid 8 buffer.

(** [supportMultiplexing] *)
Definition supportMultiplexing : bool := true.

End Channel.

(** [getScreenInfo] *)
Definition getScreenInfo {number : Type} (st : Client number)
    : option (ScreenInfo.t number) :=
  screenInfo st.

(** ** Predicates on runs *)

Section RunPredicates.
Context {number : Type}.
Implicit Types st : Client number.

Definition is_send (e : Effect number) : bool :=
  match e with
  | WsSend _ => true
  | _ => false
  end.

Definition is_settle (e : Effect number) : bool :=
  match e with
  | Settle _ _ => true
  | _ => false
  end.

(** The event delivers a frame that parses. *)
Definition delivers_frame (ev : Event number) : bool :=
  match ev with
  | SocketMessage (Some _) => true
  | _ => false
  end.

(** The event delivers a frame with identifier [k]. *)
Definition answers (k : Z) (ev : Event number) : bool :=
  match ev with
  | SocketMessage (Some json) => bool_decide (Message.id json = k)
  | _ => false
  end.

Definition calls_stop (ev : Event number) : bool :=
  match ev with
  | Invoke CallStop => true
  | _ => false
  end.

Definition calls_setScreenInfo (ev : Event number) : bool :=
  match ev with
  | Invoke (CallSetScreenInfo _) => true
  | _ => false
  end.

(** What the code that issues requests and settles promises leaves
    alone: the transport, the timers, the due reactions, the identity,
    the stopped flag and the screen descriptor; the queue while the
    transport is open; the entries under identifiers issued so far.
    It writes frames only to an open transport.  With [strict] it also
    leaves the session flag and the cached width alone. *)
Definition request_side (strict : bool) st st' : Prop :=
  ws st' = ws st
  /\ timers st' = timers st
  /\ jobs st' = jobs st
  /\ udid st' = udid st
  /\ stopped st' = stopped st
  /\ screenInfo st' = screenInfo st
  /\ (strict = true ->
      hasSession st' = hasSession st /\ screenWidth st' = screenWidth st)
  /\ (ws st = Some OPEN -> commands st' = commands st)
  /\ (messageId st <= messageId st')%Z
  /\ (forall k : Z, (k <= messageId st)%Z -> wait st' !! k = wait st !! k)
  /\ (exists sfx, trace st' = trace st ++ sfx
        /\ (forall e, e ∈ sfx -> is_send e = true \/ is_settle e = true)
        /\ (ws st <> Some OPEN -> forall e, e ∈ sfx -> is_settle e = true)).

(** While the transport is open the queue is empty. *)
Definition queue_idle st : Prop :=
  ws st = Some OPEN -> commands st = [].

(** At most one reconnect is pending, and only while the transport is
    closed. *)
Definition one_reconnect st : Prop :=
  timers st <= 1 /\ (timers st = 1 -> ws st = Some CLOSED).

(** The client was stopped and nothing can bring its transport back. *)
Definition shut_down st : Prop :=
  stopped st = true /\ timers st = 0
  /\ (ws st = Some CLOSING \/ ws st = Some CLOSED \/ ws st = None).

(** When an event may have an effect: frames are written only to an
    open transport (or to the one that is just opening), the transport is
    closed only by [stop], a reconnect is armed only by a close of a
    client that was not stopped, and a connection is opened only by an
    armed timer. *)
Definition may_emit (ev : Event number) st (e : Effect number) : Prop :=
  match e with
  | WsSend _ =>
      ws st = Some OPEN \/ (ev = SocketOpen /\ ws st = Some CONNECTING)
  | WsClose => ev = Invoke CallStop /\ ws st = Some OPEN /\ stopped st = false
  | EmitConnected true => ev = SocketOpen /\ ws st = Some CONNECTING
  | EmitConnected false => ev = SocketClose
  | SetTimeout => ev = SocketClose /\ stopped st = false
  | OpenNewConnection => ev = TimerFired /\ timers st <> 0
  | EmitWdaStatus _ => exists text, ev = SocketMessage text
  | ConsoleError => exists text, ev = SocketMessage text
  | ConsoleLog => ev = SocketClose \/ exists text, ev = SocketMessage text
  | Settle _ _ => True
  end.

End RunPredicates.

(** The frame of a device request: the text [sendMessage] hands to
    [sendCommand] for the message [requestWebDriverAgent] builds. *)
Definition request_frame {number : Type} `{!JsonText number} (id : Z)
    (method : WDAMethod) (args : Args number) : string :=
  JSON_stringify (Message.mk id REQUEST_WDA (WdaData method args)).

(** The frames of consecutive device requests, the first of which takes
    the identifier after [id]. *)
Fixpoint request_frames {number : Type} `{!JsonText number} (id : Z)
    (requests : list (Promise * WDAMethod * Args number)) : list string :=
  match requests with
  | [] => []
  | (_, method, args) :: rest =>
      request_frame (id + 1) method args :: request_frames (id + 1) rest
  end.

(** The calls that make these requests. *)
Definition request_calls {number : Type}
    (requests : list (Promise * WDAMethod * Args number))
    : list (Event number) :=
  map (fun '(p, method, args) =>
         Invoke (CallRequestWebDriverAgent p method args)) requests.

(** ** Runs with direct calls of [sendMessage]

    [sendMessage] is public.  The methods of [Call] hand it messages that
    carry an identifier fresh from [getNextId]; a caller of the class may
    also hand it a message of its own, under any identifier. *)

Inductive Action (number : Type) : Type :=
| Occurs (ev : Event number)
| CallSendMessage (p : Promise) (message : Message.t number).
Arguments Occurs {number}.
Arguments CallSendMessage {number}.

Section AllCalls.
Context {number : Type} `{!JsNumber number} `{!ScreenGeometry number}
  `{!JsonText number}.
Implicit Types st : Client number.

(** An event, or [sendMessage(message)] called by the holder of
    promise [p]. *)
Definition perform (a : Action number) st : option (Client number) :=
  match a with
  | Occurs ev => step ev st
  | CallSendMessage p message =>
      Some (drain (sendMessage message (AwaitRequest p) st))
  end.

Fixpoint run_all (acts : list (Action number)) st
    : option (Client number) :=
  match acts with
  | [] => Some st
  | a :: acts' =>
      match perform a st with
      | Some st' => run_all acts' st'
      | None => None
      end
  end.

(** The action is a direct [sendMessage] of a message with identifier
    [k]. *)
Definition sends_under (k : Z) (a : Action number) : bool :=
  match a with
  | Occurs _ => false
  | CallSendMessage _ message => bool_decide (Message.id message = k)
  end.

(** The action delivers a frame with identifier [k] or is a direct
    [sendMessage] of a message with identifier [k]. *)
Definition concerns (k : Z) (a : Action number) : bool :=
  match a with
  | Occurs ev => answers k ev
  | CallSendMessage _ message => bool_decide (Message.id message = k)
  end.

End AllCalls.

(** ** Exact rational arithmetic, to evaluate the transform

    On rationals every operation is exact; they agree with doubles
    wherever the double computation neither rounds nor divides by zero.
    [Math.round] rounds halves towards plus infinity. *)

#[export] Instance Q_number : JsNumber Q := {|
  num_add := Qplus;
  num_sub := Qminus;
  num_mul := Qmult;
  num_div := Qdiv;
  num_round := fun a => inject_Z (Qfloor (Qplus a (1 # 2)));
  num_ge := fun a b => Qle_bool b a;
  num_truthy := fun a => negb (Qeq_bool a 0);
  num_zero := 0%Q
|}.

(** One choice of the imported methods, used only to evaluate examples:
    sizes are equal when both sides are, a rectangle's extent is the
    difference of its edges, and a rotation by a quarter turn swaps the
    sides of the screen size. *)
Definition Q_size_rotate (s : Size.t Q) : Size.t Q :=
  Size.mk (Size.height s) (Size.width s).

Definition Q_rotate (r : Rotation) (p : Position.t Q) : Position.t Q :=
  let pt := Position.point p in
  let sz := Position.screenSize p in
  match r with
  | ROT_0 => p
  | ROT_90 =>
      Position.mk (Point.mk (Qminus (Size.height sz) (Point.y pt)) (Point.x pt))
                  (Q_size_rotate sz)
  | ROT_180 =>
      Position.mk (Point.mk (Qminus (Size.width sz) (Point.x pt))
                            (Qminus (Size.height sz) (Point.y pt))) sz
  | ROT_270 =>
      Position.mk (Point.mk (Point.y pt) (Qminus (Size.width sz) (Point.x pt)))
                  (Q_size_rotate sz)
  end.

#[export] Instance Q_geometry : ScreenGeometry Q := {|
  Size_equals := fun a b =>
    Qeq_bool (Size.width a) (Size.width b)
    && Qeq_bool (Size.height a) (Size.height b);
  Rect_getWidth := fun r => Qminus (Rect.right r) (Rect.left r);
  Rect_getHeight := fun r => Qminus (Rect.bottom r) (Rect.top r);
  Position_rotate := Q_rotate
|}.

(** A portrait 1080x1920 video whose content fills the frame. *)
Definition portrait : ScreenInfo.t Q :=
  ScreenInfo.mk (Rect.mk 0%Q 0%Q (1080 # 1) (1920 # 1))
                (Size.mk (1080 # 1) (1920 # 1)) ROT_0.

Definition at_portrait (x y : Q) : Position.t Q :=
  Position.mk (Point.mk x y) (Size.mk (1080 # 1) (1920 # 1)).

Definition at_landscape (x y : Q) : Position.t Q :=
  Position.mk (Point.mk x y) (Size.mk (1920 # 1) (1080 # 1)).


(** A rendering of messages to evaluate runs; of a message it keeps the
    identifier and the command kind. *)
Definition command_name (c : ControlCenterCommand) : string :=
  match c with
  | RUN_WDA => "run-wda"
  | REQUEST_WDA => "request-wda"
  | OTHER_COMMAND name => name
  end.

#[export] Instance Q_json : JsonText Q := {|
  JSON_stringify := fun m =>
    String.append "{id:"
      (String.append (pretty (Message.id m))
         (String.append ",type:"
            (String.append (command_name (Message.type m)) "}")))
|}.

(** The client of device [iphone], freshly constructed. *)
Definition fresh_client : Client Q := constructor "iphone".

(** A reply to request [id]. *)
Definition reply (id : Z) (success : bool) (response : option Q)
    : Message.t Q :=
  Message.mk id REQUEST_WDA (ResultData success response).

(** A landscape 1920x1080 video of a device turned by a quarter. *)
Definition landscape_turned : ScreenInfo.t Q :=
  ScreenInfo.mk (Rect.mk 0%Q 0%Q (1920 # 1) (1080 # 1))
                (Size.mk (1920 # 1) (1080 # 1)) ROT_90.

(** The fresh client after [runWebDriverAgent] was called for promise
    [0] and the transport has opened: request [1] is on the wire. *)
Definition awaiting_session : Client Q :=
  default fresh_client
    (run [Invoke (CallRunWebDriverAgent 0%nat); SocketOpen] fresh_client).

(** The same client after a reply to request [1] that reports failure. *)
Definition in_session : Client Q :=
  default fresh_client
    (run [Invoke (CallRunWebDriverAgent 0%nat); SocketOpen;
          SocketMessage (Some (reply 1 false None))] fresh_client).

(** A host for the handshake, to evaluate it: the channel code, device
    identifiers of one-byte characters (whose UTF-8 bytes are the
    characters themselves), and buffers of up to [2^32] bytes. *)
#[export] Instance demo_channel : ChannelHost := {|
  WDAP := "WDAP";
  stringToUtf8ByteArray := String.list_byte_of_string;
  MAX_LENGTH := 4294967296
|}.

(** The client [in_session] with a screen descriptor, and with the
    screen width cached as well. *)
Definition with_screen : Client Q := setScreenInfo portrait in_session.

Definition with_width : Client Q := set_screenWidth (360 # 1) with_screen.

(** The fresh client after its transport opened and closed again. *)
Definition reconnecting : Client Q :=
  default fresh_client (run [SocketOpen; SocketClose] fresh_client).

(** The fresh client after one call of [runWebDriverAgent]. *)
Definition first_request : Client Q :=
  default fresh_client
    (run [Invoke (CallRunWebDriverAgent 0%nat)] fresh_client).

(** * Properties *)

(** ** Geometry *)

Example calculatePhysicalPoint_portrait :
  calculatePhysicalPoint portrait (360 # 1) (at_portrait (100 # 1) (200 # 1))
  = Some (Point.mk (33 # 1) (67 # 1)).
Proof. vm_compute. reflexivity. Qed.

Example calculatePhysicalPoint_stale :
  calculatePhysicalPoint portrait (360 # 1) (at_landscape (100 # 1) (200 # 1))
  = None.
Proof. vm_compute. reflexivity. Qed.

Section GeometryFacts.
Context {number : Type} `{!JsNumber number} `{!ScreenGeometry number}.

(** C1. Whenever the screen size recorded in the rotated position equals
    the current video size, [calculatePhysicalPoint] returns the point
    that the specification describes: short side chosen by the video's
    orientation, [scale = shortSide / screenWidth], the point rotated by
    the device rotation, mapped linearly into the content rectangle, and
    each axis divided by the scale and rounded. *)
Theorem calculatePhysicalPoint_matches_spec
    (si : ScreenInfo.t number) (screenWidth : number)
    (position : Position.t number) :
  Size_equals (ScreenInfo.videoSize si)
    (Position.screenSize
       (Position_rotate (ScreenInfo.deviceRotation si) position)) = true ->
  calculatePhysicalPoint si screenWidth position
  = Some (spec_physicalPoint si screenWidth position).
Proof.
  intros Hsame. unfold calculatePhysicalPoint.
  rewrite Hsame. reflexivity.
Qed.

End GeometryFacts.

(** ** How the client evolves *)

Section ClientFacts.
Context {number : Type} `{!JsNumber number} `{!ScreenGeometry number}
  `{!JsonText number}.
Implicit Types st : Client number.

Lemma evolves_refl st : evolves st st.
Proof.
  unfold evolves. split_and!; try done.
  - intros k Hk. by left.
  - exists []. rewrite app_nil_r. split; [done | intros _]. apply not_elem_of_nil.
Qed.

Lemma evolves_trans st1 st2 st3 :
  evolves st1 st2 -> evolves st2 st3 -> evolves st1 st3.
Proof.
  intros (Hs1 & Hp1 & Hm1 & Hw1 & sfx1 & Ht1 & Hn1)
         (Hs2 & Hp2 & Hm2 & Hw2 & sfx2 & Ht2 & Hn2).
  unfold evolves. split_and!; [auto | auto | lia | |].
  - intros k Hk. destruct (Hw2 k Hk) as [Hold | Hnew].
    + destruct (Hw1 k Hold) as [? | ?]; [by left | right; lia].
    + right; lia.
  - exists (sfx1 ++ sfx2). rewrite Ht2, Ht1, app_assoc. split; [done |].
    intros Hstop [Hin | Hin]%elem_of_app.
    + by apply Hn1.
    + apply Hn2; auto.
Qed.

(** A change that touches none of the five fields [evolves] looks at. *)
Lemma evolves_quiet st st' :
  hasSession st' = hasSession st -> stopped st' = stopped st ->
  messageId st' = messageId st -> wait st' = wait st ->
  trace st' = trace st -> evolves st st'.
Proof.
  intros Hs Hp Hm Hw Ht. unfold evolves.
  rewrite Hs, Hp, Hm, Hw, Ht. apply evolves_refl.
Qed.

Lemma evolves_log (e : Effect number) st :
  (e = SetTimeout -> stopped st = false) -> evolves st (log e st).
Proof.
  intros He. unfold evolves, log; simpl. split_and!; try done.
  - intros k Hk. by left.
  - exists [e]. split; [done |].
    intros Hstop Hin%list_elem_of_singleton.
    symmetry in Hin. apply He in Hin. congruence.
Qed.

Lemma evolves_settle p (o : Outcome number) st : evolves st (settle p o st).
Proof. apply evolves_log. discriminate. Qed.

Lemma evolves_set_hasSession st : evolves st (set_hasSession true st).
Proof.
  unfold evolves; simpl. split_and!; try done.
  - intros k Hk. by left.
  - exists []. rewrite app_nil_r. split; [done | intros _]. apply not_elem_of_nil.
Qed.

Lemma evolves_set_stopped st : evolves st (set_stopped true st).
Proof.
  unfold evolves; simpl. split_and!; try done.
  - intros k Hk. by left.
  - exists []. rewrite app_nil_r. split; [done | intros _]. apply not_elem_of_nil.
Qed.

Lemma evolves_delete (k : Z) st :
  evolves st (set_wait (delete k (wait st)) st).
Proof.
  unfold evolves; simpl. split_and!; try done.
  - intros j [w Hj]. left. apply lookup_delete_Some in Hj as [_ Hj]. eauto.
  - exists []. rewrite app_nil_r. split; [done | intros _]. apply not_elem_of_nil.
Qed.

Lemma evolves_sendCommand str st : evolves st (sendCommand str st).
Proof.
  unfold sendCommand. destruct (is_open st).
  - apply evolves_log. discriminate.
  - by apply evolves_quiet.
Qed.

(** Taking the next identifier and registering a request under it. *)
Lemma evolves_issue st (t : ControlCenterCommand) (d : Data number)
    (w : Waiter number) :
  evolves st
    (sendMessage (Message.mk (messageId st + 1) t d) w
       (set_messageId (messageId st + 1)%Z st)).
Proof.
  set (st1 := set_messageId _ st).
  destruct (evolves_sendCommand
              (JSON_stringify (Message.mk (messageId st + 1) t d)) st1)
    as (Hs & Hp & Hm & Hw & sfx & Ht & Hn).
  unfold sendMessage. set (st2 := sendCommand _ st1) in *.
  unfold evolves; simpl in *. split_and!; [done | done | lia | |].
  - intros k [v Hk].
    destruct (decide (k = (messageId st + 1)%Z)) as [-> | Hne]; [right; lia |].
    rewrite lookup_insert_ne in Hk by done.
    destruct (Hw k) as [? | ?]; [eauto | by left | right; lia].
  - exists sfx. split; [done |]. auto.
Qed.

Lemma evolves_runWebDriverAgent p st : evolves st (runWebDriverAgent p st).
Proof. unfold runWebDriverAgent, getNextId. apply evolves_issue. Qed.

Lemma evolves_requestWebDriverAgent method args w st st' :
  requestWebDriverAgent method args w st = inr st' -> evolves st st'.
Proof.
  unfold requestWebDriverAgent, getNextId.
  destruct (negb (hasSession st)); [discriminate |].
  intros [= <-]. apply evolves_issue.
Qed.

Lemma evolves_request_for p method args st :
  evolves st (request_for p method args st).
Proof.
  unfold request_for.
  destruct (requestWebDriverAgent _ _ _ st) as [e | st'] eqn:Hreq.
  - apply evolves_settle.
  - eapply evolves_requestWebDriverAgent, Hreq.
Qed.

Lemma evolves_performClick_rest p position width st :
  evolves st (performClick_rest p position width st).
Proof.
  unfold performClick_rest.
  destruct (screenInfo st); [| apply evolves_settle].
  destruct (calculatePhysicalPoint _ _ _);
    [apply evolves_request_for | apply evolves_settle].
Qed.

Lemma evolves_performScroll_rest p from to width st :
  evolves st (performScroll_rest p from to width st).
Proof.
  unfold performScroll_rest.
  destruct (screenInfo st) as [info |]; [| apply evolves_settle].
  destruct (calculatePhysicalPoint info width from);
    destruct (calculatePhysicalPoint info width to);
    first [apply evolves_request_for | apply evolves_settle].
Qed.

Lemma evolves_getScreenWidth k st st' :
  getScreenWidth k st = Pending st' -> evolves st st'.
Proof.
  unfold getScreenWidth. destruct (num_truthy _); [discriminate |].
  destruct (requestWebDriverAgent _ _ _ st) eqn:Hreq; [discriminate |].
  intros [= <-]. eapply evolves_requestWebDriverAgent, Hreq.
Qed.

Lemma evolves_performClick p position st :
  evolves st (performClick p position st).
Proof.
  unfold performClick.
  destruct (screenInfo st); [| apply evolves_settle].
  destruct (num_truthy _); [apply evolves_performClick_rest |].
  destruct (getScreenWidth _ st) eqn:Hw.
  - apply evolves_performClick_rest.
  - eapply evolves_getScreenWidth, Hw.
  - apply evolves_settle.
Qed.

Lemma evolves_performScroll p from to st :
  evolves st (performScroll p from to st).
Proof.
  unfold performScroll.
  destruct (screenInfo st); [| apply evolves_settle].
  destruct (num_truthy _); [apply evolves_performScroll_rest |].
  destruct (getScreenWidth _ st) eqn:Hw.
  - apply evolves_performScroll_rest.
  - eapply evolves_getScreenWidth, Hw.
  - apply evolves_settle.
Qed.

Lemma evolves_getScreenWidth_rest temp k st :
  evolves st (getScreenWidth_rest temp k st).
Proof.
  unfold getScreenWidth_rest.
  destruct (Message.data temp) as [| | [] [width |] |];
    try apply evolves_settle.
  eapply evolves_trans with (st2 := set_screenWidth width st);
    [by apply evolves_quiet |].
  destruct k; [apply evolves_performClick_rest | apply evolves_performScroll_rest].
Qed.

Lemma evolves_react job st : evolves st (react job st).
Proof.
  destruct job as [[p | p | k] response]; simpl.
  - eapply evolves_trans; [apply evolves_set_hasSession | apply evolves_settle].
  - apply evolves_settle.
  - apply evolves_getScreenWidth_rest.
Qed.

Lemma evolves_reactions (due : list (Waiter number * Message.t number)) st :
  evolves st (fold_left (fun s job => react job s) due st).
Proof.
  revert st. induction due as [| job due IH]; intros st; simpl.
  - apply evolves_refl.
  - eapply evolves_trans; [apply evolves_react | apply IH].
Qed.

Lemma evolves_drain st : evolves st (drain st).
Proof.
  unfold drain.
  eapply evolves_trans; [| apply evolves_reactions]. by apply evolves_quiet.
Qed.

Lemma evolves_onSocketMessage text st : evolves st (onSocketMessage text st).
Proof.
  unfold onSocketMessage.
  assert (Herr : evolves st (log ConsoleLog (log ConsoleError st))).
  { eapply evolves_trans; apply evolves_log; discriminate. }
  destruct text as [json |]; [| done].
  destruct (wait st !! Message.id json).
  - eapply evolves_trans; [apply evolves_delete | by apply evolves_quiet].
  - destruct (Message.type json); [apply evolves_log; discriminate | done | done].
Qed.

Lemma evolves_onSocketClose st : evolves st (onSocketClose st).
Proof.
  unfold onSocketClose.
  set (st2 := log ConsoleLog (log (EmitConnected false) st)).
  assert (H2 : evolves st st2).
  { eapply evolves_trans; apply evolves_log; discriminate. }
  destruct (stopped st2) eqn:Hstop; simpl; [done |].
  eapply evolves_trans; [exact H2 |].
  eapply evolves_trans with (st2 := log SetTimeout _);
    [apply evolves_log; by intros _ | by apply evolves_quiet].
Qed.

Lemma evolves_flush fuel st st' : flush fuel st = Some st' -> evolves st st'.
Proof.
  revert st. induction fuel as [| fuel IH]; intros st; simpl.
  - destruct (commands st); [| discriminate]. intros [= <-]. apply evolves_refl.
  - destruct (commands st) as [| str rest]; [intros [= <-]; apply evolves_refl |].
    intros Hrest. apply IH in Hrest.
    eapply evolves_trans; [| exact Hrest].
    destruct (str_truthy str).
    + eapply evolves_trans; [| apply evolves_sendCommand]. by apply evolves_quiet.
    + by apply evolves_quiet.
Qed.

Lemma evolves_onSocketOpen st st' : onSocketOpen st = Some st' -> evolves st st'.
Proof.
  unfold onSocketOpen. intros Hflush%evolves_flush.
  eapply evolves_trans; [| exact Hflush]. apply evolves_log. discriminate.
Qed.

Lemma evolves_stop st : evolves st (stop st).
Proof.
  unfold stop. destruct (stopped st) eqn:Hstop; [apply evolves_refl |].
  destruct (is_open _).
  - eapply evolves_trans; [apply evolves_set_stopped |].
    eapply evolves_trans with (st2 := log WsClose _);
      [apply evolves_log; discriminate | by apply evolves_quiet].
  - apply evolves_set_stopped.
Qed.

Lemma evolves_openNewConnection st : evolves st (openNewConnection st).
Proof.
  unfold openNewConnection.
  eapply evolves_trans with (st2 := log OpenNewConnection _);
    [apply evolves_log; discriminate | by apply evolves_quiet].
Qed.

Lemma evolves_call c st : evolves st (call c st).
Proof.
  destruct c; simpl.
  - apply evolves_runWebDriverAgent.
  - apply evolves_request_for.
  - apply evolves_request_for.
  - apply evolves_performClick.
  - apply evolves_performScroll.
  - by apply evolves_quiet.
  - apply evolves_stop.
Qed.

Lemma evolves_handle ev st st' : handle ev st = Some st' -> evolves st st'.
Proof.
  destruct ev as [| | text | | c]; simpl.
  - destruct (ws st) as [[] |]; try (intros [= <-]; apply evolves_refl).
    intros Hopen%evolves_onSocketOpen.
    eapply evolves_trans; [| exact Hopen]. by apply evolves_quiet.
  - destruct (ws st) as [[] |]; intros [= <-]; try apply evolves_refl;
      (eapply evolves_trans; [| apply evolves_onSocketClose]; by apply evolves_quiet).
  - destruct (ws st) as [[] |]; intros [= <-]; try apply evolves_refl;
      apply evolves_onSocketMessage.
  - destruct (timers st); intros [= <-]; [apply evolves_refl |].
    eapply evolves_trans; [| apply evolves_openNewConnection]. by apply evolves_quiet.
  - intros [= <-]. apply evolves_call.
Qed.

Lemma evolves_step ev st st' : step ev st = Some st' -> evolves st st'.
Proof.
  unfold step. destruct (handle ev st) as [st1 |] eqn:Hh; [| discriminate].
  intros [= <-]. eapply evolves_trans; [eapply evolves_handle, Hh |].
  apply evolves_drain.
Qed.

Lemma evolves_run evs st st' : run evs st = Some st' -> evolves st st'.
Proof.
  revert st. induction evs as [| ev evs IH]; intros st; simpl.
  - intros [= <-]. apply evolves_refl.
  - destruct (step ev st) as [st1 |] eqn:Hs; [| discriminate].
    intros Hrun. eapply evolves_trans; [eapply evolves_step, Hs | by apply IH].
Qed.

End ClientFacts.

(** ** The outbound queue *)

Section QueueFacts.
Context {number : Type} `{!JsNumber number} `{!ScreenGeometry number}
  `{!JsonText number}.
Implicit Types st : Client number.

(** With the transport open, the loop of [onSocketOpen] ends as soon as
    the fuel covers the queue: it writes the truthy strings in queue order
    and leaves the queue empty. *)
Lemma flush_open fuel st :
  is_open st = true -> length (commands st) <= fuel ->
  flush fuel st
  = Some (set_commands []
            (set_trace
               (trace st ++ map WsSend (List.filter str_truthy (commands st)))
               st)).
Proof.
  assert (Hnil : forall st, commands st = [] ->
            st = set_commands [] (set_trace (trace st ++ []) st)).
  { intros [] Hc; simpl in *; subst.
    unfold set_commands, set_trace; simpl. by rewrite app_nil_r. }
  revert st. induction fuel as [| fuel IH]; intros st Hopen Hlen; simpl.
  - destruct (commands st) eqn:Hc; simpl in *; [| lia].
    f_equal. by apply Hnil.
  - destruct (commands st) as [| str rest] eqn:Hc; simpl in *.
    { f_equal. by apply Hnil. }
    assert (Hopen1 : is_open (set_commands rest st) = true) by done.
    destruct (str_truthy str) eqn:Hstr.
    + unfold sendCommand. rewrite Hopen1.
      rewrite IH; [| done | simpl; lia].
      destruct st; unfold set_commands, set_trace, log; simpl.
      by rewrite <- app_assoc.
    + rewrite IH; [| done | simpl; lia]. done.
Qed.

(** More fuel never changes the outcome of a loop that ended. *)
Lemma flush_more_fuel fuel fuel' st st' :
  flush fuel st = Some st' -> fuel <= fuel' -> flush fuel' st = Some st'.
Proof.
  revert fuel' st. induction fuel as [| fuel IH]; intros fuel' st; simpl.
  - destruct (commands st) eqn:Hc; [| discriminate].
    intros [= <-] _. destruct fuel'; simpl; by rewrite Hc.
  - destruct (commands st) as [| str rest] eqn:Hc.
    + intros [= <-] _. destruct fuel'; simpl; by rewrite Hc.
    + intros Hrest Hle. destruct fuel' as [| fuel']; [lia |].
      simpl. rewrite Hc. apply IH; [done | lia].
Qed.

Lemma onSocketOpen_open st :
  is_open st = true ->
  onSocketOpen st
  = Some (set_commands []
            (set_trace
               (trace st ++ EmitConnected true
                  :: map WsSend (List.filter str_truthy (commands st)))
               st)).
Proof.
  intros Hopen. unfold onSocketOpen.
  rewrite flush_open; [| done | done].
  destruct st; unfold set_commands, set_trace, log; simpl.
  by rewrite <- app_assoc.
Qed.

Lemma filter_all_truthy (frames : list string) :
  Forall (fun str => str_truthy str = true) frames ->
  List.filter str_truthy frames = frames.
Proof.
  induction 1 as [| str frames Hstr _ IH]; simpl; [done |].
  by rewrite Hstr, IH.
Qed.

(** Sending while the transport is not open only appends to the queue. *)
Lemma sendCommand_queued (frames : list string) st :
  is_open st = false ->
  fold_left (fun s str => sendCommand str s) frames st
  = set_commands (commands st ++ frames) st.
Proof.
  revert st. induction frames as [| str frames IH]; intros st Hclosed; simpl.
  - destruct st; unfold set_commands; simpl. by rewrite app_nil_r.
  - unfold sendCommand at 2. rewrite Hclosed.
    rewrite IH; [| done].
    destruct st; unfold set_commands; simpl. by rewrite <- app_assoc.
Qed.

(** Every event ends: the handlers return, and so does every run. *)
Lemma handle_total (ev : Event number) st : exists st', handle ev st = Some st'.
Proof.
  destruct ev; simpl; eauto.
  - destruct (ws st) as [[] |]; eauto.
    rewrite onSocketOpen_open; [eauto | done].
  - destruct (ws st) as [[] |]; eauto.
  - destruct (ws st) as [[] |]; eauto.
  - destruct (timers st); eauto.
Qed.

Lemma step_total (ev : Event number) st : exists st', step ev st = Some st'.
Proof.
  unfold step. destruct (handle_total ev st) as [st1 ->]. eauto.
Qed.

Lemma run_total (evs : list (Event number)) st :
  exists st', run evs st = Some st'.
Proof.
  revert st. induction evs as [| ev evs IH]; intros st; simpl; [eauto |].
  destruct (step_total ev st) as [st1 ->]. apply IH.
Qed.

(** The loop hands on only truthy strings: an empty string in the queue
    is dropped, not written. *)
Lemma onSocketOpen_skips_empty_strings st :
  is_open st = true -> commands st = [EmptyString] ->
  exists st', onSocketOpen st = Some st'
              /\ commands st' = []
              /\ trace st' = trace st ++ [EmitConnected true].
Proof.
  intros Hopen Hqueue. rewrite onSocketOpen_open by done.
  eexists. split; [reflexivity |]. simpl. by rewrite Hqueue.
Qed.

(** The loop relies on the transport being open: otherwise [sendCommand]
    puts every string back and no number of rounds empties the queue. *)
Lemma flush_without_transport fuel st :
  is_open st = false -> commands st <> [] ->
  Forall (fun s => str_truthy s = true) (commands st) ->
  flush fuel st = None.
Proof.
  revert st. induction fuel as [| fuel IH]; intros st Hclosed Hqueue Htruthy;
    simpl; destruct (commands st) as [| str rest] eqn:Hc; try done.
  inversion Htruthy as [| ? ? Hstr Hrest]; subst. rewrite Hstr.
  unfold sendCommand. replace (is_open (set_commands rest st)) with false by done.
  apply IH; simpl.
  - done.
  - by destruct rest.
  - apply Forall_app. split; [done | by constructor].
Qed.

(** C9. Frames passed to [sendCommand] while the transport is not open
    are appended to the queue in call order and nothing is written; when
    the transport then opens, [onSocketOpen] returns, having written every
    queued frame in the order it was enqueued, and the queue is empty.
    A frame is a serialized message, so never the empty string. *)
Theorem queued_frames_flushed_in_order (frames : list string) st :
  is_open st = false ->
  Forall (fun str => str_truthy str = true) (commands st ++ frames) ->
  let st1 := fold_left (fun s str => sendCommand str s) frames st in
  commands st1 = commands st ++ frames
  /\ trace st1 = trace st
  /\ exists st2,
       onSocketOpen (set_ws (Some OPEN) st1) = Some st2
       /\ commands st2 = []
       /\ trace st2
          = trace st ++ EmitConnected true
              :: map WsSend (commands st ++ frames).
Proof.
  intros Hclosed Hframes st1. subst st1.
  rewrite sendCommand_queued by done. simpl.
  split_and!; [done | done |].
  eexists. split; [apply onSocketOpen_open; done |].
  simpl. by rewrite filter_all_truthy.
Qed.

End QueueFacts.

(** ** Request correlation and the session flag *)

Section CorrelationFacts.
Context {number : Type} `{!JsNumber number} `{!ScreenGeometry number}
  `{!JsonText number}.
Implicit Types st : Client number.

Lemma wait_bounded_constructor name : wait_bounded (constructor name).
Proof. intros k [w Hk]. simpl in Hk. by rewrite lookup_empty in Hk. Qed.

Lemma wait_bounded_evolves st st' :
  wait_bounded st -> evolves st st' -> wait_bounded st'.
Proof.
  intros Hb (_ & _ & Hm & Hw & _) k Hk.
  destruct (Hw k Hk) as [Hold | Hnew]; [| lia].
  apply Hb in Hold. lia.
Qed.

(** An identifier that was issued and is not pending never becomes
    pending again. *)
Lemma answered_stays_absent (k : Z) st st' :
  wait st !! k = None -> (k <= messageId st)%Z -> evolves st st' ->
  wait st' !! k = None.
Proof.
  intros Hnone Hk (_ & _ & _ & Hw & _).
  destruct (wait st' !! k) as [w |] eqn:Hlook; [| done].
  destruct (Hw k) as [[w' Hold] | Hnew]; [eauto | congruence | lia].
Qed.

(** The reaction that was made due last runs last. *)
Lemma drain_last (job : Waiter number * Message.t number)
    (due : list (Waiter number * Message.t number)) st :
  jobs st = due ++ [job] ->
  drain st
  = react job (fold_left (fun s j => react j s) due (set_jobs [] st)).
Proof. intros Hjobs. unfold drain. by rewrite Hjobs, fold_left_app. Qed.

(** What [onSocketMessage] does with a frame that matches an entry. *)
Lemma onSocketMessage_matched (json : Message.t number) (w : Waiter number) st :
  wait st !! Message.id json = Some w ->
  onSocketMessage (Some json) st
  = set_jobs (jobs st ++ [(w, json)])
      (set_wait (delete (Message.id json) (wait st)) st).
Proof. intros Hw. unfold onSocketMessage. by rewrite Hw. Qed.

(** C2. [runWebDriverAgent] registers its caller under the identifier
    it takes; and whatever response arrives under that identifier,
    reporting success or failure, the event that delivers it leaves the
    session flag set and fulfils the caller's promise with that
    response. *)
Theorem runWebDriverAgent_any_response_sets_session (p : Promise) st :
  wait (runWebDriverAgent p st) !! (messageId st + 1)%Z = Some (AwaitRunWda p)
  /\ forall st1 (response : Message.t number),
       ws st1 = Some OPEN ->
       wait st1 !! Message.id response = Some (AwaitRunWda p) ->
       exists st2 earlier,
         step (SocketMessage (Some response)) st1 = Some st2
         /\ hasSession st2 = true
         /\ trace st2 = earlier ++ [Settle p (Fulfilled (Reply response))].
Proof.
  split.
  - unfold runWebDriverAgent, getNextId, sendMessage; simpl.
    apply lookup_insert_eq.
  - intros st1 response Hopen Hwait.
    unfold step, handle. rewrite Hopen.
    rewrite (onSocketMessage_matched _ _ _ Hwait).
    eexists _, _. split; [reflexivity |].
    erewrite drain_last by reflexivity. simpl. split; reflexivity.
Qed.

(** Runs with direct calls of [sendMessage] end as well. *)
Lemma perform_total (a : Action number) st : exists st', perform a st = Some st'.
Proof. destruct a; simpl; [apply step_total | eauto]. Qed.

Lemma run_all_total (acts : list (Action number)) st :
  exists st', run_all acts st = Some st'.
Proof.
  revert st. induction acts as [| a acts IH]; intros st; simpl; [eauto |].
  destruct (perform_total a st) as [st1 ->]. apply IH.
Qed.

(** A direct [sendMessage] registers under the identifier of its
    message and takes no identifier. *)
Lemma sendMessage_registers (message : Message.t number)
    (w : Waiter number) st :
  wait (sendMessage message w st) = <[Message.id message := w]> (wait st)
  /\ messageId (sendMessage message w st) = messageId st.
Proof. unfold sendMessage, sendCommand. by destruct (is_open st). Qed.

(** An issued identifier without an entry gets one again only through a
    direct [sendMessage] that reuses it. *)
Lemma absent_perform (k : Z) (a : Action number) st st' :
  wait st !! k = None -> (k <= messageId st)%Z ->
  sends_under k a = false -> perform a st = Some st' ->
  wait st' !! k = None /\ (k <= messageId st')%Z.
Proof.
  intros Hnone Hk Ha. destruct a as [ev | p message]; simpl in *.
  - intros Hstep%evolves_step. split.
    + by eapply answered_stays_absent.
    + destruct Hstep as (_ & _ & Hm & _). lia.
  - intros [= <-]. apply bool_decide_eq_false in Ha.
    destruct (sendMessage_registers message (AwaitRequest p) st) as [Hw Hm].
    pose proof (evolves_drain (sendMessage message (AwaitRequest p) st))
      as Hdrain.
    split.
    + eapply answered_stays_absent; [| | exact Hdrain].
      * by rewrite Hw, lookup_insert_ne.
      * lia.
    + destruct Hdrain as (_ & _ & Hm' & _). lia.
Qed.

Lemma absent_run_all (k : Z) (acts : list (Action number)) st st' :
  wait st !! k = None -> (k <= messageId st)%Z ->
  Forall (fun a => sends_under k a = false) acts ->
  run_all acts st = Some st' -> wait st' !! k = None.
Proof.
  intros Hnone Hk Hacts. revert st Hnone Hk.
  induction Hacts as [| a acts Ha _ IH]; intros st Hnone Hk; simpl.
  - by intros [= <-].
  - destruct (perform a st) as [st1 |] eqn:Hp; [| discriminate].
    destruct (absent_perform _ _ _ _ Hnone Hk Ha Hp) as [Hnone1 Hk1].
    by apply IH.
Qed.

(** C3, as the code has it.  A frame whose identifier matches a pending
    entry removes that entry and no other, makes exactly that request's
    completion due with the full message, and does nothing else, whatever
    else is pending.  For an identifier that [getNextId] has issued, the
    table then never has an entry again, whatever happens afterwards,
    direct calls of [sendMessage] included, unless such a call reuses the
    identifier; in particular never in a run made of events and the
    methods that take their identifiers from [getNextId]. *)
Theorem dispatch_completes_exactly_the_matching_request
    (json : Message.t number) (w : Waiter number) st :
  wait st !! Message.id json = Some w ->
  let st' := onSocketMessage (Some json) st in
  wait st' = delete (Message.id json) (wait st)
  /\ (forall k : Z, k <> Message.id json -> wait st' !! k = wait st !! k)
  /\ wait st' !! Message.id json = None
  /\ jobs st' = jobs st ++ [(w, json)]
  /\ trace st' = trace st
  /\ ((Message.id json <= messageId st)%Z ->
      forall after : list (Action number),
        Forall (fun a => sends_under (Message.id json) a = false) after ->
        exists st'', run_all after (drain st') = Some st''
                     /\ wait st'' !! Message.id json = None)
  /\ forall name (before after : list (Event number)),
       run before (constructor name) = Some st ->
       exists st'', run after (drain st') = Some st''
                    /\ wait st'' !! Message.id json = None.
Proof.
  intros Hw st'. subst st'. rewrite (onSocketMessage_matched _ _ _ Hw). simpl.
  set (st' := set_jobs _ _).
  assert (Hgone : wait st' !! Message.id json = None)
    by apply lookup_delete_eq.
  split_and!; try done.
  - intros k Hk. by rewrite lookup_delete_ne.
  - intros Hissued after Hafter.
    destruct (run_all_total after (drain st')) as [st'' Hrun].
    exists st''. split; [done |].
    pose proof (evolves_drain st') as Hdrain.
    eapply absent_run_all; [| | exact Hafter | exact Hrun].
    + by eapply answered_stays_absent.
    + destruct Hdrain as (_ & _ & Hm & _). simpl in Hm. lia.
  - intros name before after Hrun.
    destruct (run_total after (drain st')) as [st'' Hafter].
    exists st''. split; [done |].
    assert (Hb : wait_bounded st).
    { eapply wait_bounded_evolves;
        [apply wait_bounded_constructor | eapply evolves_run, Hrun]. }
    eapply (answered_stays_absent _ st').
    + done.
    + apply Hb. eauto.
    + eapply evolves_trans; [apply evolves_drain | eapply evolves_run, Hafter].
Qed.

(** C5. Without a session [requestWebDriverAgent] throws "No session":
    the caller's promise is rejected with it, nothing is written to the
    transport or queued, no identifier is taken, no entry is registered;
    apart from the rejection the client is as it was. *)
Theorem requestWebDriverAgent_without_session (p : Promise)
    (method : WDAMethod) (args : Args number) (w : Waiter number) st :
  hasSession st = false ->
  requestWebDriverAgent method args w st = inl NoSession
  /\ request_for p method args st = settle p (Rejected NoSession) st
  /\ trace (request_for p method args st)
     = trace st ++ [Settle p (Rejected NoSession)]
  /\ commands (request_for p method args st) = commands st
  /\ wait (request_for p method args st) = wait st
  /\ messageId (request_for p method args st) = messageId st.
Proof.
  intros Hno.
  assert (Hthrow : forall w', requestWebDriverAgent method args w' st
                              = inl NoSession).
  { intros w'. unfold requestWebDriverAgent. by rewrite Hno. }
  unfold request_for. rewrite !Hthrow. done.
Qed.

(** C8. In every run of a constructed client, through any closes,
    reconnects and reopenings: [getNextId] returns an identifier above
    zero that has no entry yet, and whatever happens after that call,
    the next call returns a strictly larger one. *)
Theorem getNextId_strictly_increasing name
    (before between : list (Event number)) :
  exists st1 st2,
    run before (constructor name) = Some st1
    /\ run between (snd (getNextId st1)) = Some st2
    /\ (0 < fst (getNextId st1) < fst (getNextId st2))%Z
    /\ wait st1 !! fst (getNextId st1) = None.
Proof.
  destruct (run_total before (constructor name)) as [st1 H1].
  destruct (run_total between (snd (getNextId st1))) as [st2 H2].
  exists st1, st2. split; [done |]. split; [done |]. split.
  - apply evolves_run in H1 as (_ & _ & Hm1 & _).
    apply evolves_run in H2 as (_ & _ & Hm2 & _).
    simpl in *. lia.
  - assert (Hb : wait_bounded st1).
    { eapply wait_bounded_evolves;
        [apply wait_bounded_constructor | eapply evolves_run, H1]. }
    destruct (wait st1 !! fst (getNextId st1)) eqn:Hlook; [| done].
    specialize (Hb _ (mk_is_Some _ _ Hlook)). simpl in Hb. lia.
Qed.

(** C10. Once the session flag is set it stays set through every run,
    including [stop], closes and reconnects, and so
    [requestWebDriverAgent] passes its session check ever after: it
    issues the request instead of throwing. *)
Theorem hasSession_is_never_reset (evs : list (Event number)) st :
  hasSession st = true ->
  exists st',
    run evs st = Some st'
    /\ hasSession st' = true
    /\ forall method args w,
         exists st'', requestWebDriverAgent method args w st' = inr st''.
Proof.
  intros Hset.
  destruct (run_total evs st) as [st' Hrun]. exists st'.
  assert (Hset' : hasSession st' = true).
  { apply evolves_run in Hrun as (Hs & _). auto. }
  split_and!; [done | done |].
  intros method args w. unfold requestWebDriverAgent. rewrite Hset'. simpl.
  eauto.
Qed.

End CorrelationFacts.

(** ** Stale positions *)

Section FacadeFacts.
Context {number : Type} `{!JsNumber number} `{!ScreenGeometry number}
  `{!JsonText number}.
Implicit Types st : Client number.

(** C4. Whenever the screen size recorded in the rotated position differs
    from the current video size, [calculatePhysicalPoint] returns no
    point, whatever the input point, the screen width and the rotation;
    it returns, it does not raise.  A click at such a position is dropped:
    the caller's promise is fulfilled and nothing else happens. *)
Theorem calculatePhysicalPoint_stale_is_dropped
    (si : ScreenInfo.t number) (width : number)
    (position : Position.t number) :
  Size_equals (ScreenInfo.videoSize si)
    (Position.screenSize
       (Position_rotate (ScreenInfo.deviceRotation si) position)) = false ->
  calculatePhysicalPoint si width position = None
  /\ forall (p : Promise) st,
       screenInfo st = Some si ->
       performClick_rest p position width st
       = settle p (Fulfilled Void) st.
Proof.
  intros Hdiffer.
  assert (Hnone : calculatePhysicalPoint si width position = None).
  { unfold calculatePhysicalPoint. rewrite Hdiffer. reflexivity. }
  split; [done |].
  intros p st Hinfo. unfold performClick_rest. by rewrite Hinfo, Hnone.
Qed.

End FacadeFacts.

(** ** The theorems at concrete clients *)

Lemma calculatePhysicalPoint_matches_spec_witness :
  Size_equals (ScreenInfo.videoSize landscape_turned)
    (Position.screenSize
       (Position_rotate (ScreenInfo.deviceRotation landscape_turned)
          (at_portrait (100 # 1) (200 # 1)))) = true
  /\ calculatePhysicalPoint landscape_turned (360 # 1)
       (at_portrait (100 # 1) (200 # 1))
     = Some (spec_physicalPoint landscape_turned (360 # 1)
               (at_portrait (100 # 1) (200 # 1))).
Proof.
  split; [reflexivity |].
  apply calculatePhysicalPoint_matches_spec. reflexivity.
Defined.

Lemma calculatePhysicalPoint_stale_is_dropped_witness :
  Size_equals (ScreenInfo.videoSize portrait)
    (Position.screenSize
       (Position_rotate (ScreenInfo.deviceRotation portrait)
          (at_landscape (100 # 1) (200 # 1)))) = false
  /\ calculatePhysicalPoint portrait (360 # 1)
       (at_landscape (100 # 1) (200 # 1)) = None
  /\ performClick_rest 7%nat (at_landscape (100 # 1) (200 # 1)) (360 # 1)
       (setScreenInfo portrait fresh_client)
     = settle 7%nat (Fulfilled Void) (setScreenInfo portrait fresh_client).
Proof.
  split; [reflexivity |].
  destruct (calculatePhysicalPoint_stale_is_dropped portrait (360 # 1)
              (at_landscape (100 # 1) (200 # 1))) as [Hnone Hdrop];
    [reflexivity |].
  split; [exact Hnone | apply Hdrop; reflexivity].
Defined.

Lemma runWebDriverAgent_any_response_sets_session_witness :
  ws awaiting_session = Some OPEN
  /\ wait awaiting_session !! Message.id (reply 1 false None)
     = Some (AwaitRunWda 0%nat)
  /\ exists st2 earlier,
       step (SocketMessage (Some (reply 1 false None))) awaiting_session
       = Some st2
       /\ hasSession st2 = true
       /\ trace st2
          = earlier ++ [Settle 0%nat (Fulfilled (Reply (reply 1 false None)))].
Proof.
  split; [vm_compute; reflexivity |].
  split; [vm_compute; reflexivity |].
  apply (proj2 (runWebDriverAgent_any_response_sets_session 0%nat fresh_client));
    vm_compute; reflexivity.
Defined.

Lemma requestWebDriverAgent_without_session_witness :
  hasSession fresh_client = false
  /\ requestWebDriverAgent CLICK (ClickArgs (1 # 1) (2 # 1))
       (AwaitRequest 3%nat) fresh_client = inl NoSession
  /\ trace (request_for 3%nat CLICK (ClickArgs (1 # 1) (2 # 1)) fresh_client)
     = trace fresh_client ++ [Settle 3%nat (Rejected NoSession)]
  /\ commands (request_for 3%nat CLICK (ClickArgs (1 # 1) (2 # 1)) fresh_client)
     = commands fresh_client.
Proof.
  split; [reflexivity |].
  destruct (requestWebDriverAgent_without_session 3%nat CLICK
              (ClickArgs (1 # 1) (2 # 1)) (AwaitRequest 3%nat) fresh_client)
    as (Hthrow & _ & Htrace & Hqueue & _); [reflexivity |].
  split; [exact Hthrow |]. split; [exact Htrace | exact Hqueue].
Defined.

Lemma queued_frames_flushed_in_order_witness :
  is_open fresh_client = false
  /\ Forall (fun str => str_truthy str = true)
       (commands fresh_client ++ ["first"; "second"])
  /\ exists st2,
       onSocketOpen
         (set_ws (Some OPEN)
            (fold_left (fun s str => sendCommand str s) ["first"; "second"]
               fresh_client)) = Some st2
       /\ commands st2 = []
       /\ trace st2
          = trace fresh_client ++ EmitConnected true
              :: map WsSend (commands fresh_client ++ ["first"; "second"]).
Proof.
  assert (Hframes : Forall (fun str => str_truthy str = true)
                      (commands fresh_client ++ ["first"; "second"])).
  { repeat constructor. }
  split; [reflexivity |]. split; [exact Hframes |].
  destruct (queued_frames_flushed_in_order ["first"; "second"] fresh_client)
    as (_ & _ & Hflush); [reflexivity | exact Hframes |].
  exact Hflush.
Defined.

Lemma hasSession_is_never_reset_witness :
  hasSession in_session = true
  /\ exists st',
       run [Invoke CallStop; SocketClose; TimerFired; SocketOpen] in_session
       = Some st'
       /\ hasSession st' = true
       /\ forall method args w,
            exists st'', requestWebDriverAgent method args w st' = inr st''.
Proof.
  split; [vm_compute; reflexivity |].
  apply hasSession_is_never_reset. vm_compute; reflexivity.
Defined.

(** ** Where the code departs from the specification *)


(** C7 fails when a transport opens after [stop].  [stop] closes only a
    transport that is open: one that is still connecting goes on to open,
    and a reconnect timer armed by an earlier close still fires and opens
    a new one.  Either way [onSocketOpen] flushes the queue, and a later
    [sendCommand] is written, not queued. *)
Lemma stop_does_not_prevent_a_later_flush :
  (ws (runWebDriverAgent 0%nat fresh_client) = Some CONNECTING
   /\ stopped (stop (runWebDriverAgent 0%nat fresh_client)) = true
   /\ commands (stop (runWebDriverAgent 0%nat fresh_client))
      = ["{id:1,type:run-wda}"]
   /\ exists st',
        run [SocketOpen] (stop (runWebDriverAgent 0%nat fresh_client))
        = Some st'
        /\ trace st'
           = trace (stop (runWebDriverAgent 0%nat fresh_client))
               ++ [EmitConnected true; WsSend "{id:1,type:run-wda}"]
        /\ commands st' = []
        /\ trace (sendCommand "late" st') = trace st' ++ [WsSend "late"]
        /\ commands (sendCommand "late" st') = [])
  /\ exists st1 st2,
       run [SocketOpen; SocketClose; Invoke (CallRunWebDriverAgent 0%nat)]
         fresh_client = Some st1
       /\ timers st1 = 1%nat
       /\ run [TimerFired; SocketOpen] (stop st1) = Some st2
       /\ stopped st2 = true
       /\ trace st2
          = trace (stop st1)
              ++ [OpenNewConnection; EmitConnected true;
                  WsSend "{id:1,type:run-wda}"].
Proof.
  split.
  - split_and!; try (vm_compute; reflexivity).
    eexists. split_and!; vm_compute; reflexivity.
  - eexists _, _. split_and!; vm_compute; reflexivity.
Qed.

(** ** The channel handshake *)

Section ChannelFacts.
Context `{!ChannelHost}.

(** Writing a list over the start of another. *)
Lemma list_inserts_0 {A} (k l : list A) :
  list_inserts 0 k l = take (length l) k ++ drop (length k) l.
Proof.
  revert l. induction k as [| y k IH]; intros l; simpl.
  - by rewrite take_nil.
  - destruct l as [| x l]; [by rewrite list_inserts_nil |].
    rewrite list_inserts_cons. simpl. by rewrite IH.
Qed.

(** Writing a list into another at an offset, when it fits. *)
Lemma list_inserts_fits {A} (i : nat) (k l : list A) :
  i + length k <= length l ->
  list_inserts i k l = take i l ++ k ++ drop (i + length k) l.
Proof.
  intros Hfits.
  rewrite <- (take_drop i l) at 1.
  replace i with (length (take i l) + 0) at 1
    by (rewrite length_take; lia).
  rewrite list_inserts_app_r, list_inserts_0.
  rewrite (take_ge k) by (rewrite length_drop; lia).
  by rewrite drop_drop.
Qed.

Lemma length_list_byte_of_string (str : string) :
  length (String.list_byte_of_string str) = String.length str.
Proof.
  unfold String.list_byte_of_string. rewrite List.length_map.
  induction str as [| c str IH]; [done |].
  cbn [String.list_ascii_of_string length String.length]. by rewrite IH.
Qed.

Lemma uint8_value (z : Z) : Z.of_N (Byte.to_N (uint8 z)) = (z mod 256)%Z.
Proof.
  unfold uint8.
  assert (Hrange : (0 <= z mod 256 < 256)%Z) by (apply Z.mod_pos_bound; lia).
  destruct (Byte.of_N (Z.to_N (z mod 256))) as [b |] eqn:Hb; simpl.
  - apply Byte.to_of_N in Hb. rewrite Hb. lia.
  - apply Byte.of_N_None_iff in Hb. lia.
Qed.

(** The four bytes spell the integer they were made from. *)
Lemma le_value_uint32_le (value : Z) :
  (0 <= value < 2 ^ 32)%Z -> le_value (uint32_le value) = value.
Proof.
  intros Hrange. unfold le_value, uint32_le. cbn [foldr].
  rewrite !uint8_value, !Z.shiftr_div_pow2 by lia.
  change (2 ^ 8)%Z with 256%Z.
  change (2 ^ 16)%Z with (256 * 256)%Z.
  change (2 ^ 24)%Z with (256 * 256 * 256)%Z.
  rewrite <- !Z.div_div by lia.
  set (a := (value / 256)%Z). set (b := (a / 256)%Z). set (c := (b / 256)%Z).
  assert (Hc : (0 <= c < 256)%Z).
  { subst c b a. rewrite !Z.div_div by lia. split.
    - apply Z.div_pos; lia.
    - apply Z.div_lt_upper_bound; lia. }
  rewrite (Z.mod_small c) by lia.
  pose proof (Z.div_mod value 256 ltac:(lia)).
  pose proof (Z.div_mod a 256 ltac:(lia)).
  pose proof (Z.div_mod b 256 ltac:(lia)).
  subst a b c. lia.
Qed.

(** The three writes of [getChannelInitData], composed. *)
Lemma getChannelInitData_bytes (params_udid : string) :
  let udid := stringToUtf8ByteArray params_udid in
  (Z.of_nat (length udid) < 2 ^ 32)%Z ->
  (Z.of_nat (8 + length udid) <= MAX_LENGTH)%Z ->
  exists data,
    getChannelInitData params_udid = Some data
    /\ data
       = take 4 (String.list_byte_of_string WDAP ++ replicate 4 Byte.x00)
           ++ uint32_le (Z.of_nat (length udid)) ++ udid
    /\ length data = 8 + length udid.
Proof.
  intros udid Hlen Hmax.
  set (code := String.list_byte_of_string WDAP).
  set (head := take 4 (code ++ replicate 4 Byte.x00)).
  set (size := uint32_le (Z.of_nat (length udid))).
  assert (Hhead : length head = 4).
  { subst head. rewrite length_take, length_app, length_replicate. lia. }
  assert (Hsize : length size = 4) by done.
  eexists. split; [| split; [reflexivity |]].
  2: { rewrite !length_app. lia. }
  unfold getChannelInitData. fold udid.
  change (4 + 4 + length udid) with (8 + length udid).
  remember (8 + length udid) as total eqn:Htotal.
  unfold Buffer_alloc.
  destruct (Z.leb_spec (Z.of_nat total) MAX_LENGTH) as [_ | ?]; [| lia].
  cbn [mbind option_bind].
  unfold Buffer_write_ascii. fold code. rewrite length_replicate.
  remember (list_inserts 0 (take total code) (replicate total Byte.x00))
    as written eqn:Hwritten.
  assert (Hlength : length written = total).
  { subst written. by rewrite length_inserts, length_replicate. }
  assert (Hstart : take 4 written = head).
  { subst written head. rewrite list_inserts_0, length_replicate.
    rewrite take_take, Nat.min_id, length_take, drop_replicate.
    destruct (decide (4 <= length code)) as [Hlong | Hshort].
    - rewrite take_app_le by (rewrite length_take; lia).
      rewrite take_take. rewrite (take_app_le code) by lia.
      f_equal. lia.
    - rewrite (take_ge code) by lia.
      rewrite !take_app_ge by lia. f_equal.
      rewrite !take_replicate. f_equal. lia. }
  unfold Buffer_writeUInt32LE. fold size.
  rewrite bool_decide_true by lia.
  rewrite bool_decide_true by lia.
  cbn [andb mbind option_bind].
  unfold Buffer_set. rewrite length_inserts.
  rewrite bool_decide_true by lia. f_equal.
  rewrite (list_inserts_fits 4 size) by lia.
  rewrite Hstart, Hsize.
  rewrite list_inserts_fits
    by (rewrite !length_app, Hhead, Hsize, length_drop; lia).
  rewrite take_app_ge by lia. rewrite Hhead.
  change (8 - 4) with 4.
  rewrite (take_app_le size) by lia.
  rewrite (take_ge size) by lia.
  rewrite drop_app_ge by lia. rewrite Hhead.
  rewrite drop_app_ge by lia. rewrite Hsize.
  rewrite drop_drop.
  rewrite (drop_ge written) by lia.
  by rewrite app_nil_r, <- app_assoc.
Qed.

(** X1. The handshake that [getChannelInitData] returns is the first
    four bytes of the channel code (zero-padded when the code is shorter),
    then the byte length of the identifier as four little-endian bytes,
    then the identifier's bytes: [8 + length] bytes in all. *)
Theorem getChannelInitData_layout (params_udid : string) :
  let udid := stringToUtf8ByteArray params_udid in
  (Z.of_nat (length udid) < 2 ^ 32)%Z ->
  (Z.of_nat (8 + length udid) <= MAX_LENGTH)%Z ->
  exists data,
    getChannelInitData params_udid = Some data
    /\ data
       = take 4 (String.list_byte_of_string WDAP ++ replicate 4 Byte.x00)
           ++ uint32_le (Z.of_nat (length udid)) ++ udid
    /\ length data = 8 + length udid.
Proof. apply getChannelInitData_bytes. Qed.

(** X2. A reader of the handshake gets the identifier back: the 32-bit
    little-endian integer at offset 4 is the identifier's byte length, and
    the bytes from offset 8 on are the identifier's bytes. *)
Theorem getChannelInitData_reads_back (params_udid : string) :
  let udid := stringToUtf8ByteArray params_udid in
  (Z.of_nat (length udid) < 2 ^ 32)%Z ->
  (Z.of_nat (8 + length udid) <= MAX_LENGTH)%Z ->
  exists data,
    getChannelInitData params_udid = Some data
    /\ Buffer_readUInt32LE 4 data = Some (Z.of_nat (length udid))
    /\ drop 8 data = udid
    /\ (String.length WDAP = 4 ->
        take 4 data = String.list_byte_of_string WDAP).
Proof.
  intros udid Hlen Hmax.
  destruct (getChannelInitData_bytes params_udid Hlen Hmax)
    as (data & Hdata & -> & Hlength).
  fold udid in Hlength |- *.
  set (head := take 4 _) in *.
  set (size := uint32_le (Z.of_nat (length udid))) in *.
  assert (Hhead : length head = 4).
  { subst head. rewrite length_take, length_app, length_replicate. lia. }
  assert (Hsize : length size = 4) by reflexivity.
  exists (head ++ size ++ udid).
  split_and!; [done | | |].
  - unfold Buffer_readUInt32LE. rewrite bool_decide_true by lia. f_equal.
    rewrite drop_app_ge by lia. rewrite Hhead.
    change (4 - 4) with 0. rewrite drop_0.
    rewrite take_app_le by lia. rewrite take_ge by lia.
    apply le_value_uint32_le. lia.
  - rewrite drop_app_ge by lia. rewrite Hhead.
    change (8 - 4) with 4.
    rewrite drop_app_ge by lia. rewrite Hsize.
    change (4 - 4) with 0. apply drop_0.
  - intros Hcode. rewrite take_app_le by lia. rewrite take_ge by lia.
    subst head. rewrite take_app_le; [apply take_ge |].
    all: rewrite length_list_byte_of_string; lia.
Qed.

End ChannelFacts.

(** ** What issuing requests leaves alone *)

Section RequestSide.
Context {number : Type} `{!JsNumber number} `{!ScreenGeometry number}
  `{!JsonText number}.
Implicit Types st : Client number.

Lemma is_open_ws st : is_open st = true <-> ws st = Some OPEN.
Proof. unfold is_open. destruct (ws st) as [[] |]; split; done. Qed.

Lemma request_side_refl strict st : request_side strict st st.
Proof.
  unfold request_side. split_and!; try done.
  exists []. rewrite app_nil_r. split_and!; [done | |];
    intros; by match goal with H : _ ∈ [] |- _ => apply elem_of_nil in H end.
Qed.

Lemma request_side_trans strict st1 st2 st3 :
  request_side strict st1 st2 -> request_side strict st2 st3 ->
  request_side strict st1 st3.
Proof.
  intros (Hw1 & Ht1 & Hj1 & Hu1 & Hp1 & Hi1 & Hs1 & Hc1 & Hm1 & Hk1
            & sfx1 & Htr1 & Ha1 & Hb1)
         (Hw2 & Ht2 & Hj2 & Hu2 & Hp2 & Hi2 & Hs2 & Hc2 & Hm2 & Hk2
            & sfx2 & Htr2 & Ha2 & Hb2).
  unfold request_side. split_and!; try congruence.
  - intros Hstrict. destruct (Hs1 Hstrict), (Hs2 Hstrict).
    split; congruence.
  - intros Hopen. rewrite Hc2, Hc1; [done | done | congruence].
  - lia.
  - intros k Hk. rewrite Hk2, Hk1; [done | done | lia].
  - exists (sfx1 ++ sfx2). rewrite Htr2, Htr1, app_assoc. split_and!; [done | |].
    + intros e [? | ?]%elem_of_app; auto.
    + intros Hclosed e [? | ?]%elem_of_app; [auto |].
      apply Hb2; [congruence | done].
Qed.

Lemma request_side_weaken st st' :
  request_side true st st' -> request_side false st st'.
Proof.
  intros (H1 & H2 & H3 & H4 & H5 & H6 & _ & H8 & H9 & H10 & H11).
  unfold request_side. split_and!; done.
Qed.

Lemma request_side_settle strict p (o : Outcome number) st :
  request_side strict st (settle p o st).
Proof.
  unfold request_side, settle, log; simpl. split_and!; try done.
  exists [Settle p o]. split_and!; [done | |].
  - intros e ->%list_elem_of_singleton. by right.
  - intros _ e ->%list_elem_of_singleton. done.
Qed.

Lemma request_side_sendCommand strict str st :
  request_side strict st (sendCommand str st).
Proof.
  unfold sendCommand, is_open.
  destruct (ws st) as [[] |] eqn:Hws;
    unfold request_side, log; simpl; rewrite ?Hws;
    (split_and!; try done;
     try (exists []; rewrite app_nil_r; split_and!; [done | |];
          intros; by match goal with H : _ ∈ [] |- _ => apply elem_of_nil in H end)).
  exists [WsSend str]. split_and!; [done | |].
  - intros e ->%list_elem_of_singleton. by left.
  - done.
Qed.

(** Taking the next identifier and registering a request under it. *)
Lemma request_side_issue strict st (t : ControlCenterCommand)
    (d : Data number) (w : Waiter number) :
  request_side strict st
    (sendMessage (Message.mk (messageId st + 1) t d) w
       (set_messageId (messageId st + 1)%Z st)).
Proof.
  set (st1 := set_messageId _ st).
  destruct (request_side_sendCommand strict
              (JSON_stringify (Message.mk (messageId st + 1) t d)) st1)
    as (Hw & Ht & Hj & Hu & Hp & Hi & Hs & Hc & Hm & Hk & sfx & Htr & Ha & Hb).
  unfold sendMessage. set (st2 := sendCommand _ st1) in *.
  unfold request_side; simpl in *. split_and!; try done.
  - lia.
  - intros k Hle. rewrite lookup_insert_ne by lia. apply Hk. lia.
  - eauto.
Qed.

Lemma request_side_runWebDriverAgent strict p st :
  request_side strict st (runWebDriverAgent p st).
Proof. unfold runWebDriverAgent, getNextId. apply request_side_issue. Qed.

Lemma request_side_requestWebDriverAgent strict method args w st st' :
  requestWebDriverAgent method args w st = inr st' ->
  request_side strict st st'.
Proof.
  unfold requestWebDriverAgent, getNextId.
  destruct (negb (hasSession st)); [discriminate |].
  intros [= <-]. apply request_side_issue.
Qed.

Lemma request_side_request_for strict p method args st :
  request_side strict st (request_for p method args st).
Proof.
  unfold request_for.
  destruct (requestWebDriverAgent _ _ _ st) as [e | st'] eqn:Hreq.
  - apply request_side_settle.
  - eapply request_side_requestWebDriverAgent, Hreq.
Qed.

Lemma request_side_performClick_rest strict p position width st :
  request_side strict st (performClick_rest p position width st).
Proof.
  unfold performClick_rest.
  destruct (screenInfo st) as [info |]; [| apply request_side_settle].
  destruct (calculatePhysicalPoint info width position);
    [apply request_side_request_for | apply request_side_settle].
Qed.

Lemma request_side_performScroll_rest strict p from to width st :
  request_side strict st (performScroll_rest p from to width st).
Proof.
  unfold performScroll_rest.
  destruct (screenInfo st) as [info |]; [| apply request_side_settle].
  destruct (calculatePhysicalPoint info width from);
    destruct (calculatePhysicalPoint info width to);
    first [apply request_side_request_for | apply request_side_settle].
Qed.

Lemma request_side_getScreenWidth strict k st st' :
  getScreenWidth k st = Pending st' -> request_side strict st st'.
Proof.
  unfold getScreenWidth. destruct (num_truthy _); [discriminate |].
  destruct (requestWebDriverAgent _ _ _ st) eqn:Hreq; [discriminate |].
  intros [= <-]. eapply request_side_requestWebDriverAgent, Hreq.
Qed.

Lemma request_side_performClick strict p position st :
  request_side strict st (performClick p position st).
Proof.
  unfold performClick.
  destruct (screenInfo st); [| apply request_side_settle].
  destruct (num_truthy _); [apply request_side_performClick_rest |].
  destruct (getScreenWidth _ st) eqn:Hw.
  - apply request_side_performClick_rest.
  - eapply request_side_getScreenWidth, Hw.
  - apply request_side_settle.
Qed.

Lemma request_side_performScroll strict p from to st :
  request_side strict st (performScroll p from to st).
Proof.
  unfold performScroll.
  destruct (screenInfo st); [| apply request_side_settle].
  destruct (num_truthy _); [apply request_side_performScroll_rest |].
  destruct (getScreenWidth _ st) eqn:Hw.
  - apply request_side_performScroll_rest.
  - eapply request_side_getScreenWidth, Hw.
  - apply request_side_settle.
Qed.

(** Every public method but [stop] and [setScreenInfo]. *)
Lemma request_side_call (c : Call number) st :
  c <> CallStop -> (forall info, c <> CallSetScreenInfo info) ->
  request_side true st (call c st).
Proof.
  intros Hstop Hset. destruct c; simpl.
  - apply request_side_runWebDriverAgent.
  - apply request_side_request_for.
  - apply request_side_request_for.
  - apply request_side_performClick.
  - apply request_side_performScroll.
  - by destruct (Hset info).
  - done.
Qed.

Lemma request_side_quiet st st' :
  ws st' = ws st -> timers st' = timers st -> jobs st' = jobs st ->
  udid st' = udid st -> stopped st' = stopped st ->
  screenInfo st' = screenInfo st -> commands st' = commands st ->
  messageId st' = messageId st -> wait st' = wait st ->
  trace st' = trace st -> request_side false st st'.
Proof.
  intros Hw Ht Hj Hu Hp Hi Hc Hm Hk Htr. unfold request_side.
  rewrite Hw, Ht, Hj, Hu, Hp, Hi, Hc, Hm, Hk, Htr.
  split_and!; try done.
  exists []. rewrite app_nil_r. split_and!; [done | |];
    intros; by match goal with H : _ ∈ [] |- _ => apply elem_of_nil in H end.
Qed.

Lemma request_side_getScreenWidth_rest temp k st :
  request_side false st (getScreenWidth_rest temp k st).
Proof.
  unfold getScreenWidth_rest.
  destruct (Message.data temp) as [| | [] [width |] |];
    try apply request_side_settle.
  eapply request_side_trans with (st2 := set_screenWidth width st);
    [by apply request_side_quiet |].
  destruct k;
    [apply request_side_performClick_rest | apply request_side_performScroll_rest].
Qed.

Lemma request_side_react job st : request_side false st (react job st).
Proof.
  destruct job as [[p | p | k] response]; simpl.
  - eapply request_side_trans with (st2 := set_hasSession true st);
      [by apply request_side_quiet | apply request_side_settle].
  - apply request_side_settle.
  - apply request_side_getScreenWidth_rest.
Qed.

Lemma request_side_reactions
    (due : list (Waiter number * Message.t number)) st :
  request_side false st (fold_left (fun s job => react job s) due st).
Proof.
  revert st. induction due as [| job due IH]; intros st; simpl.
  - apply request_side_refl.
  - eapply request_side_trans; [apply request_side_react | apply IH].
Qed.

(** The due reactions: as above, from the state with none due. *)
Lemma request_side_drain st : request_side false (set_jobs [] st) (drain st).
Proof. apply request_side_reactions. Qed.

End RequestSide.

(** ** Invariants of runs *)

Section Invariants.
Context {number : Type} `{!JsNumber number} `{!ScreenGeometry number}
  `{!JsonText number}.
Implicit Types st : Client number.

Lemma drain_idle st : jobs st = [] -> drain st = st.
Proof. intros Hj. unfold drain. rewrite Hj. by destruct st; simpl in *; subst. Qed.

(** A property that survives the request side survives the reactions. *)
Lemma drain_keeps (P : Client number -> Prop) st :
  (forall s, P s -> P (set_jobs [] s)) ->
  (forall s s', P s -> request_side false s s' -> P s') ->
  P st -> P (drain st).
Proof.
  intros Hjobs Hside HP. eapply Hside; [| apply request_side_drain]. auto.
Qed.

Lemma step_jobs (ev : Event number) st st' :
  step ev st = Some st' -> jobs st' = [].
Proof.
  unfold step. destruct (handle ev st) as [st1 |]; [| discriminate].
  intros [= <-]. by destruct (request_side_drain st1) as (_ & _ & -> & _).
Qed.

(** The state an opening transport leaves. *)
Lemma handle_SocketOpen st :
  ws st = Some CONNECTING ->
  handle SocketOpen st
  = Some (set_commands []
            (set_trace
               (trace st ++ EmitConnected true
                  :: map WsSend (List.filter str_truthy (commands st)))
               (set_ws (Some OPEN) st))).
Proof. intros Hws. simpl. rewrite Hws. by rewrite onSocketOpen_open. Qed.

Lemma queue_idle_request_side strict st st' :
  queue_idle st -> request_side strict st st' -> queue_idle st'.
Proof.
  intros Hidle (Hws & _ & _ & _ & _ & _ & _ & Hc & _) Hopen.
  rewrite Hws in Hopen. rewrite Hc by done. auto.
Qed.

Lemma queue_idle_handle (ev : Event number) st st' :
  queue_idle st -> handle ev st = Some st' -> queue_idle st'.
Proof.
  intros Hidle. destruct ev as [| | text | | c].
  - destruct (ws st) as [[] |] eqn:Hws;
      try (simpl; rewrite Hws; by intros [= <-]).
    rewrite handle_SocketOpen by done. by intros [= <-] _.
  - simpl. destruct (ws st) as [[] |] eqn:Hws; intros [= <-]; try done;
      unfold queue_idle, onSocketClose; simpl; by destruct (stopped st).
  - simpl. destruct (ws st) as [[] |] eqn:Hws; intros [= <-]; try done;
      unfold queue_idle, onSocketMessage in *;
      repeat case_match; simpl; rewrite ?Hws in *; auto.
  - simpl. destruct (timers st); intros [= <-]; [done |].
    unfold queue_idle, openNewConnection. simpl. done.
  - simpl. intros [= <-]. destruct c;
      try (eapply queue_idle_request_side;
             [done | apply request_side_call; done]).
    + done.
    + unfold call, stop. destruct (stopped st); [done |].
      unfold queue_idle, is_open in *. simpl.
      destruct (ws st) as [[] |] eqn:Hws; simpl; rewrite ?Hws; done.
Qed.

Lemma queue_idle_step (ev : Event number) st st' :
  queue_idle st -> step ev st = Some st' -> queue_idle st'.
Proof.
  intros Hidle. unfold step.
  destruct (handle ev st) as [st1 |] eqn:Hh; [| discriminate].
  intros [= <-]. apply drain_keeps.
  - done.
  - intros s s'. apply queue_idle_request_side.
  - eapply queue_idle_handle; eauto.
Qed.

Lemma queue_idle_run (evs : list (Event number)) st st' :
  queue_idle st -> run evs st = Some st' -> queue_idle st'.
Proof.
  revert st. induction evs as [| ev evs IH]; intros st Hidle; simpl.
  - by intros [= <-].
  - destruct (step ev st) as [st1 |] eqn:Hs; [| discriminate].
    apply IH. eapply queue_idle_step; eauto.
Qed.

(** X3. In every run of a constructed client the queue is empty whenever
    the transport is open: frames wait in the queue only while there is
    no open transport, and every opening drains the queue completely. *)
Theorem queue_is_empty_while_open name (evs : list (Event number)) :
  exists st',
    run evs (constructor name) = Some st'
    /\ (ws st' = Some OPEN -> commands st' = []).
Proof.
  destruct (run_total evs (constructor name)) as [st' Hrun].
  exists st'. split; [done |].
  eapply queue_idle_run; [| exact Hrun]. by intros [=].
Qed.

Lemma one_reconnect_request_side strict st st' :
  one_reconnect st -> request_side strict st st' -> one_reconnect st'.
Proof.
  intros [Hle Hclosed] (Hws & Ht & _). unfold one_reconnect.
  rewrite Hws, Ht. done.
Qed.

Lemma one_reconnect_handle (ev : Event number) st st' :
  one_reconnect st -> handle ev st = Some st' -> one_reconnect st'.
Proof.
  intros Hone.
  assert (Hlive : ws st <> Some CLOSED -> timers st = 0).
  { destruct Hone as [Hle Hclosed]. intros Hws.
    destruct (timers st) as [| [| n]]; [done | | lia].
    by destruct Hws; apply Hclosed. }
  destruct ev as [| | text | | c].
  - destruct (ws st) as [[] |] eqn:Hws;
      try (simpl; rewrite Hws; by intros [= <-]).
    rewrite handle_SocketOpen by done. intros [= <-].
    unfold one_reconnect. simpl. rewrite Hlive by done. split; [lia | done].
  - simpl. destruct (ws st) as [[] |] eqn:Hws; intros [= <-]; try done;
      unfold one_reconnect, onSocketClose; simpl; destruct (stopped st); simpl;
      rewrite Hlive by done; split; (lia || done).
  - simpl. destruct (ws st) as [[] |] eqn:Hws; intros [= <-]; try done;
      unfold one_reconnect, onSocketMessage in *; repeat case_match; simpl;
      done.
  - simpl. destruct (timers st) as [| n] eqn:Ht; intros [= <-]; [done |].
    destruct Hone as [Hle _].
    unfold one_reconnect, openNewConnection. simpl. split; lia.
  - simpl. intros [= <-]. destruct c;
      try (eapply (one_reconnect_request_side true st);
             [done | apply request_side_call; done]).
    + done.
    + unfold call, stop. destruct (stopped st); [done |].
      unfold is_open. simpl.
      destruct (ws st) as [[] |] eqn:Hws; simpl; try done.
      unfold one_reconnect. simpl. rewrite Hlive by done.
      split; [lia | done].
Qed.

Lemma one_reconnect_step (ev : Event number) st st' :
  one_reconnect st -> step ev st = Some st' -> one_reconnect st'.
Proof.
  intros Hone. unfold step.
  destruct (handle ev st) as [st1 |] eqn:Hh; [| discriminate].
  intros [= <-]. apply drain_keeps.
  - done.
  - intros s s'. apply one_reconnect_request_side.
  - eapply one_reconnect_handle; eauto.
Qed.

Lemma one_reconnect_run (evs : list (Event number)) st st' :
  one_reconnect st -> run evs st = Some st' -> one_reconnect st'.
Proof.
  revert st. induction evs as [| ev evs IH]; intros st Hone; simpl.
  - by intros [= <-].
  - destruct (step ev st) as [st1 |] eqn:Hs; [| discriminate].
    apply IH. eapply one_reconnect_step; eauto.
Qed.

(** X4. In every run of a constructed client at most one reconnect timer
    is armed at a time, and only while the transport is closed: the
    client never has a reconnect pending beside a live transport, and
    never two. *)
Theorem at_most_one_reconnect_pending name (evs : list (Event number)) :
  exists st',
    run evs (constructor name) = Some st'
    /\ timers st' <= 1
    /\ (timers st' = 1 -> ws st' = Some CLOSED).
Proof.
  destruct (run_total evs (constructor name)) as [st' Hrun].
  exists st'. split; [done |].
  eapply one_reconnect_run; [| exact Hrun]. split; simpl; [lia | done].
Qed.

End Invariants.

(** ** The cause of every effect *)

Section Effects.
Context {number : Type} `{!JsNumber number} `{!ScreenGeometry number}
  `{!JsonText number}.
Implicit Types st : Client number.

(** An element of a short explicit list, case by case. *)
Ltac each_effect H :=
  repeat (apply elem_of_cons in H as [-> | H]);
  [.. | by apply elem_of_nil in H].

Lemma handle_opens (ev : Event number) st st' :
  handle ev st = Some st' -> ws st' = Some OPEN ->
  ws st = Some OPEN \/ (ev = SocketOpen /\ ws st = Some CONNECTING).
Proof.
  destruct ev as [| | text | | c].
  - destruct (ws st) as [[] |] eqn:Hws;
      try (simpl; rewrite Hws; intros [= <-]; rewrite Hws; by auto).
    auto.
  - simpl. destruct (ws st) as [[] |] eqn:Hws; intros [= <-];
      rewrite ?Hws; try done;
      unfold onSocketClose; simpl; by destruct (stopped st).
  - simpl. destruct (ws st) as [[] |] eqn:Hws; intros [= <-];
      rewrite ?Hws; auto;
      unfold onSocketMessage; repeat case_match; simpl; rewrite ?Hws; done.
  - simpl. destruct (timers st); intros [= <-]; [auto |].
    unfold openNewConnection. simpl. done.
  - simpl. intros [= <-]. destruct c;
      try (match goal with
           | |- context [call ?c st] =>
               destruct (request_side_call c st ltac:(done) ltac:(done))
                 as (-> & _)
           end; by auto).
    + unfold call, setScreenInfo. simpl. auto.
    + unfold call, stop. destruct (stopped st); [auto |].
      unfold is_open. simpl.
      destruct (ws st) as [[] |] eqn:Hws; simpl; rewrite ?Hws; auto; done.
Qed.

Lemma request_side_effects (ev : Event number) strict st st' :
  request_side strict st st' ->
  exists sfx, trace st' = trace st ++ sfx
              /\ forall e, e ∈ sfx -> may_emit ev st e.
Proof.
  intros (_ & _ & _ & _ & _ & _ & _ & _ & _ & _ & sfx & Htr & Hkind & Hclosed).
  exists sfx. split; [done |]. intros e He.
  destruct e; try (destruct (Hkind _ He); done); simpl.
  destruct (ws st) as [[] |] eqn:Hws; auto;
    by specialize (Hclosed ltac:(done) _ He).
Qed.

Lemma handle_effects (ev : Event number) st st' :
  handle ev st = Some st' ->
  exists sfx, trace st' = trace st ++ sfx
              /\ forall e, e ∈ sfx -> may_emit ev st e.
Proof.
  assert (Hnone : exists sfx : list (Effect number),
             trace st = trace st ++ sfx
             /\ forall e, e ∈ sfx -> may_emit ev st e).
  { exists []. rewrite app_nil_r. split; [done |].
    intros e He. by apply elem_of_nil in He. }
  destruct ev as [| | text | | c].
  - destruct (ws st) as [[] |] eqn:Hws;
      try (simpl; rewrite Hws; by intros [= <-]).
    rewrite handle_SocketOpen by done. intros [= <-]. simpl.
    eexists. split; [reflexivity |].
    intros e [-> | He]%elem_of_cons; simpl; [done |].
    apply list_elem_of_In, List.in_map_iff in He as (str & <- & _).
    simpl. auto.
  - simpl. destruct (ws st) as [[] |] eqn:Hws; intros [= <-]; try done;
      unfold onSocketClose; simpl; destruct (stopped st) eqn:Hstop; simpl;
      rewrite <- ?app_assoc; (eexists; split; [reflexivity |]);
      intros e He; each_effect He; simpl; auto.
  - simpl. destruct (ws st) as [[] |] eqn:Hws; intros [= <-]; try done;
      unfold onSocketMessage; repeat case_match; simpl; try done;
      rewrite <- ?app_assoc; (eexists; split; [reflexivity |]);
      intros e He; each_effect He; simpl; eauto.
  - simpl. destruct (timers st) as [| n] eqn:Ht; intros [= <-]; [done |].
    unfold openNewConnection. simpl.
    eexists; split; [reflexivity |].
    intros e He; each_effect He; simpl. split; [done | lia].
  - simpl. intros [= <-]. destruct c;
      try (eapply request_side_effects, request_side_call; done).
    + done.
    + unfold call, stop. destruct (stopped st) eqn:Hstop; [done |].
      unfold is_open. simpl.
      destruct (ws st) as [[] |] eqn:Hws; simpl; try done.
      eexists; split; [reflexivity |].
      intros e He; each_effect He; simpl. done.
Qed.

(** Every effect of a step is one its event may have. *)
Lemma step_may_emit (ev : Event number) st st' :
  step ev st = Some st' ->
  exists sfx, trace st' = trace st ++ sfx
              /\ forall e, e ∈ sfx -> may_emit ev st e.
Proof.
  unfold step. destruct (handle ev st) as [st1 |] eqn:Hh; [| discriminate].
  intros [= <-].
  destruct (handle_effects _ _ _ Hh) as (sfx1 & Htr1 & Hin1).
  destruct (request_side_drain st1)
    as (Hws & _ & _ & _ & _ & _ & _ & _ & _ & _ & sfx2 & Htr2 & Hkind & Hclosed).
  simpl in *. exists (sfx1 ++ sfx2).
  rewrite Htr2, Htr1, app_assoc. split; [done |].
  intros e [He | He]%elem_of_app; [auto |].
  destruct e; try (destruct (Hkind _ He); done); simpl.
  destruct (ws st1) as [[] |] eqn:Hws1;
    try by specialize (Hclosed ltac:(done) _ He).
  eapply handle_opens; eauto.
Qed.

(** X5. Every effect of an event has its cause: a frame is written only
    while the transport is open or as it opens, the transport is closed
    only by a first [stop] on an open transport, a reconnect timer is
    armed only by a close of a client that was not stopped, and a new
    connection is opened only by an armed timer. *)
Theorem every_effect_has_its_cause (ev : Event number) st st' :
  step ev st = Some st' ->
  exists sfx, trace st' = trace st ++ sfx
              /\ forall e, e ∈ sfx -> may_emit ev st e.
Proof. apply step_may_emit. Qed.

End Effects.

(** ** Runs: closing, stopping and the session flag *)

Section RunFacts.
Context {number : Type} `{!JsNumber number} `{!ScreenGeometry number}
  `{!JsonText number}.
Implicit Types st : Client number.

(** The effects of a run, each with the event that caused it and the
    state that event found, for any property [inv] that steps keep. *)
Lemma run_effects (inv : Client number -> Prop)
    (evs : list (Event number)) st st' :
  (forall ev s s', inv s -> step ev s = Some s' -> inv s') ->
  inv st -> run evs st = Some st' ->
  inv st'
  /\ exists sfx, trace st' = trace st ++ sfx
       /\ forall e, e ∈ sfx ->
            exists ev s, ev ∈ evs /\ inv s /\ may_emit ev s e.
Proof.
  intros Hkeep. revert st. induction evs as [| ev evs IH]; intros st Hinv; simpl.
  - intros [= <-]. split; [done |]. exists []. rewrite app_nil_r.
    split; [done |]. intros e He. by apply elem_of_nil in He.
  - destruct (step ev st) as [st1 |] eqn:Hs; [| discriminate]. intros Hrun.
    destruct (step_may_emit _ _ _ Hs) as (sfx1 & Htr1 & Hin1).
    destruct (IH st1 (Hkeep _ _ _ Hinv Hs) Hrun) as (Hinv' & sfx2 & Htr2 & Hin2).
    split; [done |]. exists (sfx1 ++ sfx2).
    rewrite Htr2, Htr1, app_assoc. split; [done |].
    intros e [He | He]%elem_of_app.
    + exists ev, st. split_and!; [left | done | auto].
    + destruct (Hin2 _ He) as (ev' & s & Hev & Hs' & Hemit).
      exists ev', s. split_and!; [by right | done | done].
Qed.

(** X6. The client never closes the transport of its own accord: in a
    run without a call of [stop] no [close] is issued, whatever arrives,
    be it a frame that does not parse or one of an unsupported type. *)
Theorem only_stop_closes_the_transport (evs : list (Event number)) st :
  Forall (fun ev => calls_stop ev = false) evs ->
  exists st' sfx,
    run evs st = Some st'
    /\ trace st' = trace st ++ sfx
    /\ WsClose ∉ sfx.
Proof.
  intros Hnostop. destruct (run_total evs st) as [st' Hrun].
  destruct (run_effects (fun _ => True) evs st st') as (_ & sfx & Htr & Hin);
    [done | done | done |].
  exists st', sfx. split_and!; [done | done |].
  intros Hclose. destruct (Hin _ Hclose) as (ev & s & Hev & _ & -> & _).
  rewrite Forall_forall in Hnostop. by specialize (Hnostop _ Hev).
Qed.

Lemma shut_down_request_side strict st st' :
  shut_down st -> request_side strict st st' -> shut_down st'.
Proof.
  intros (Hstop & Ht & Hws) (Hws' & Ht' & _ & _ & Hstop' & _).
  unfold shut_down. by rewrite Hws', Ht', Hstop'.
Qed.

Lemma shut_down_handle (ev : Event number) st st' :
  shut_down st -> handle ev st = Some st' -> shut_down st'.
Proof.
  intros Hdown. pose proof Hdown as (Hstop & Ht & Hws).
  destruct ev as [| | text | | c].
  - simpl. destruct Hws as [-> | [-> | ->]]; by intros [= <-].
  - simpl. destruct Hws as [Hws | [Hws | Hws]]; rewrite Hws;
      intros [= <-]; try done.
    unfold shut_down, onSocketClose. simpl. rewrite Hstop. simpl. auto.
  - simpl. destruct Hws as [Hws | [Hws | Hws]]; rewrite Hws;
      intros [= <-]; try done.
    unfold shut_down, onSocketMessage in *. repeat case_match; simpl; auto.
  - simpl. rewrite Ht. by intros [= <-].
  - simpl. intros [= <-]. destruct c;
      try (eapply (shut_down_request_side true st);
             [done | apply request_side_call; done]).
    + done.
    + unfold call, stop. by rewrite Hstop.
Qed.

Lemma shut_down_step (ev : Event number) st st' :
  shut_down st -> step ev st = Some st' -> shut_down st'.
Proof.
  intros Hdown. unfold step.
  destruct (handle ev st) as [st1 |] eqn:Hh; [| discriminate].
  intros [= <-]. apply drain_keeps.
  - done.
  - intros s s'. apply shut_down_request_side.
  - eapply shut_down_handle; eauto.
Qed.

(** X7. [stop] on an open transport with no reconnect pending ends the
    client for good: it issues the one [close], and in every run after
    it no frame is written, no connection is opened, no timer is armed,
    no "connected" is reported, and the transport is never open again. *)
Theorem stop_on_open_transport_is_final (evs : list (Event number)) st :
  stopped st = false -> ws st = Some OPEN -> timers st = 0 ->
  trace (stop st) = trace st ++ [WsClose]
  /\ exists st' sfx,
       run evs (stop st) = Some st'
       /\ trace st' = trace (stop st) ++ sfx
       /\ ws st' <> Some OPEN
       /\ forall e, e ∈ sfx ->
            is_send e = false /\ e <> WsClose /\ e <> OpenNewConnection
            /\ e <> SetTimeout /\ e <> EmitConnected true.
Proof.
  intros Hrunning Hopen Htimers.
  assert (Hstop : stop st
                  = set_ws (Some CLOSING) (log WsClose (set_stopped true st))).
  { unfold stop, is_open. rewrite Hrunning. simpl. by rewrite Hopen. }
  split; [by rewrite Hstop |].
  assert (Hdown : shut_down (stop st)).
  { rewrite Hstop. unfold shut_down. simpl. auto. }
  destruct (run_total evs (stop st)) as [st' Hrun].
  destruct (run_effects shut_down evs (stop st) st')
    as ((_ & _ & Hws) & sfx & Htr & Hin);
    [apply shut_down_step | done | done |].
  exists st', sfx. split_and!; [done | done | |].
  - by destruct Hws as [-> | [-> | ->]].
  - intros e He.
    destruct (Hin _ He) as (ev & s & _ & (Hs & Ht & Hw) & Hemit).
    destruct e as [| | [] | | | | | |]; simpl in Hemit; split_and!; try done.
    + destruct Hemit as [Hemit | [_ Hemit]];
        destruct Hw as [Hw | [Hw | Hw]]; congruence.
    + destruct Hemit as (_ & Hemit & _).
      destruct Hw as [Hw | [Hw | Hw]]; congruence.
    + destruct Hemit as [_ Hemit].
      destruct Hw as [Hw | [Hw | Hw]]; congruence.
    + destruct Hemit as [_ Hemit]. congruence.
    + destruct Hemit as [_ Hemit]. congruence.
Qed.

(** Without a frame nothing becomes due and the session flag keeps its
    value. *)
Lemma quiet_handle (ev : Event number) st st' :
  delivers_frame ev = false -> jobs st = [] ->
  handle ev st = Some st' ->
  jobs st' = [] /\ hasSession st' = hasSession st.
Proof.
  intros Hev Hjobs. destruct ev as [| | [json |] | | c]; try done.
  - destruct (ws st) as [[] |] eqn:Hws;
      try (simpl; rewrite Hws; by intros [= <-]).
    rewrite handle_SocketOpen by done. by intros [= <-].
  - simpl. destruct (ws st) as [[] |]; intros [= <-]; try done;
      unfold onSocketClose; simpl; by destruct (stopped st).
  - simpl. destruct (ws st) as [[] |]; by intros [= <-].
  - simpl. destruct (timers st); by intros [= <-].
  - simpl. intros [= <-]. destruct c;
      try (match goal with
           | |- context [call ?c st] =>
               destruct (request_side_call c st ltac:(done) ltac:(done))
                 as (_ & _ & -> & _ & _ & _ & Hstrict & _)
           end; by destruct (Hstrict eq_refl)).
    + done.
    + unfold call, stop. destruct (stopped st); [done |].
      by destruct (is_open _).
Qed.

Lemma quiet_run (evs : list (Event number)) st st' :
  Forall (fun ev => delivers_frame ev = false) evs -> jobs st = [] ->
  run evs st = Some st' ->
  jobs st' = [] /\ hasSession st' = hasSession st.
Proof.
  intros Hevs. revert st. induction Hevs as [| ev evs Hev _ IH];
    intros st Hjobs; simpl.
  - by intros [= <-].
  - unfold step. destruct (handle ev st) as [st1 |] eqn:Hh; [| discriminate].
    destruct (quiet_handle _ _ _ Hev Hjobs Hh) as [Hj1 Hs1].
    rewrite (drain_idle st1) by done. intros Hrun.
    destruct (IH st1 Hj1 Hrun) as [? ?]. split; congruence.
Qed.

(** X8. No session without a reply: in a run of a constructed client in
    which no frame has arrived the session flag is still unset, however
    often [runWebDriverAgent] was called and whatever reconnects took
    place, and every device request is rejected with "No session". *)
Theorem no_session_before_a_reply name (evs : list (Event number)) :
  Forall (fun ev => delivers_frame ev = false) evs ->
  exists st',
    run evs (constructor name) = Some st'
    /\ hasSession st' = false
    /\ forall p method args,
         request_for p method args st' = settle p (Rejected NoSession) st'.
Proof.
  intros Hquiet. destruct (run_total evs (constructor name)) as [st' Hrun].
  destruct (quiet_run evs (constructor name) st' Hquiet eq_refl Hrun)
    as [_ Hflag].
  simpl in Hflag. exists st'. split_and!; [done | done |].
  intros p method args. unfold request_for, requestWebDriverAgent.
  by rewrite Hflag.
Qed.

End RunFacts.
(** ** After [stop] *)

Section AfterStop.
Context {number : Type} `{!JsNumber number} `{!ScreenGeometry number}
  `{!JsonText number}.
Implicit Types st : Client number.

(** A stopped client stays stopped and arms no reconnect, direct calls
    of [sendMessage] included. *)
Lemma stopped_perform (a : Action number) st st' :
  stopped st = true -> perform a st = Some st' ->
  stopped st' = true
  /\ exists sfx, trace st' = trace st ++ sfx /\ SetTimeout ∉ sfx.
Proof.
  intros Hstop. destruct a as [ev | p message]; simpl.
  - intros (_ & Hkeep & _ & _ & sfx & Htr & Hno)%evolves_step.
    split; [auto |]. exists sfx. auto.
  - intros [= <-].
    pose proof (evolves_drain (sendMessage message (AwaitRequest p) st))
      as (_ & Hkeep & _ & _ & sfx & Htr & Hno).
    assert (Hsend : stopped (sendMessage message (AwaitRequest p) st) = true
                    /\ exists sfx0,
                         trace (sendMessage message (AwaitRequest p) st)
                         = trace st ++ sfx0 /\ SetTimeout ∉ sfx0).
    { unfold sendMessage, sendCommand. destruct (is_open st); simpl.
      - split; [done |]. eexists. split; [done |].
        by intros [=]%list_elem_of_singleton.
      - split; [done |]. exists []. rewrite app_nil_r. split; [done |].
        by intros ?%elem_of_nil. }
    destruct Hsend as (Hstop1 & sfx0 & Htr0 & Hno0).
    split; [auto |]. exists (sfx0 ++ sfx).
    rewrite Htr, Htr0, app_assoc. split; [done |].
    intros [? | ?]%elem_of_app; [done |]. by apply Hno.
Qed.

Lemma stopped_run_all (acts : list (Action number)) st st' :
  stopped st = true -> run_all acts st = Some st' ->
  stopped st' = true
  /\ exists sfx, trace st' = trace st ++ sfx /\ SetTimeout ∉ sfx.
Proof.
  revert st. induction acts as [| a acts IH]; intros st Hstop; simpl.
  - intros [= <-]. split; [done |]. exists []. rewrite app_nil_r.
    split; [done |]. by intros ?%elem_of_nil.
  - destruct (perform a st) as [st1 |] eqn:Hp; [| discriminate].
    intros Hrun.
    destruct (stopped_perform _ _ _ Hstop Hp) as (Hstop1 & sfx1 & Htr1 & Hno1).
    destruct (IH _ Hstop1 Hrun) as (Hstop' & sfx & Htr & Hno).
    split; [done |]. exists (sfx1 ++ sfx).
    rewrite Htr, Htr1, app_assoc. split; [done |].
    by intros [? | ?]%elem_of_app.
Qed.

(** Once the client is shut down nothing is written to the transport,
    direct calls of [sendMessage] included. *)
Lemma shut_down_perform (a : Action number) st st' :
  shut_down st -> perform a st = Some st' ->
  shut_down st'
  /\ exists sfx, trace st' = trace st ++ sfx
                 /\ forall e, e ∈ sfx -> is_send e = false.
Proof.
  intros Hdown. pose proof Hdown as (Hstop & Ht & Hws).
  assert (Hclosed : ws st <> Some OPEN /\ ws st <> Some CONNECTING).
  { destruct Hws as [-> | [-> | ->]]; by split. }
  destruct a as [ev | p message]; simpl.
  - intros Hs. split; [by eapply shut_down_step |].
    destruct (step_may_emit _ _ _ Hs) as (sfx & Htr & Hin).
    exists sfx. split; [done |]. intros e He. specialize (Hin _ He).
    destruct e; try done. simpl in Hin. destruct Hclosed.
    by destruct Hin as [? | [_ ?]].
  - intros [= <-].
    assert (Hsend : sendMessage message (AwaitRequest p) st
                    = set_wait (<[Message.id message := AwaitRequest p]>
                                  (wait st))
                        (set_commands
                           (commands st ++ [JSON_stringify message]) st)).
    { unfold sendMessage, sendCommand.
      destruct (is_open st) eqn:Hopen; [| done].
      apply is_open_ws in Hopen. by destruct Hclosed. }
    rewrite Hsend.
    set (st1 := set_wait _ _).
    assert (Hdown1 : shut_down (set_jobs [] st1)) by done.
    pose proof (request_side_drain st1) as Hside.
    split; [by eapply shut_down_request_side |].
    destruct Hside
      as (_ & _ & _ & _ & _ & _ & _ & _ & _ & _ & sfx & Htr & _ & Hsettle).
    exists sfx. split; [done |]. intros e He.
    specialize (Hsettle (proj1 Hclosed) _ He). by destruct e.
Qed.

Lemma shut_down_run_all (acts : list (Action number)) st st' :
  shut_down st -> run_all acts st = Some st' ->
  shut_down st'
  /\ exists sfx, trace st' = trace st ++ sfx
                 /\ forall e, e ∈ sfx -> is_send e = false.
Proof.
  revert st. induction acts as [| a acts IH]; intros st Hdown; simpl.
  - intros [= <-]. split; [done |]. exists []. rewrite app_nil_r.
    split; [done |]. by intros e ?%elem_of_nil.
  - destruct (perform a st) as [st1 |] eqn:Hp; [| discriminate].
    intros Hrun.
    destruct (shut_down_perform _ _ _ Hdown Hp) as (Hdown1 & sfx1 & Htr1 & Hno1).
    destruct (IH _ Hdown1 Hrun) as (Hdown' & sfx & Htr & Hno).
    split; [done |]. exists (sfx1 ++ sfx).
    rewrite Htr, Htr1, app_assoc. split; [done |].
    intros e [? | ?]%elem_of_app; auto.
Qed.

(** C7, as the code has it.  [stop] on a stopped client changes nothing,
    so a second [stop] makes no second close attempt; a first [stop]
    closes the transport only when it is open.  After [stop] the stopped
    flag stays set through every run, direct calls of [sendMessage]
    included, a further [stop] still changes nothing, and no reconnect
    timer is armed any more, whatever closes.  When the first [stop]
    finds no transport that is still connecting and no reconnect timer
    armed, no frame is written to the transport in any run afterwards,
    the transport never opens again, and [sendCommand] (hence
    [sendMessage]) appends to the queue. *)
Theorem stop_is_idempotent_and_ends_reconnects st :
  (stopped st = true -> stop st = st)
  /\ stop (stop st) = stop st
  /\ stopped (stop st) = true
  /\ trace (stop st)
     = trace st ++ (if negb (stopped st) && is_open st then [WsClose] else [])
  /\ (forall acts : list (Action number),
        exists st' sfx,
          run_all acts (stop st) = Some st'
          /\ stopped st' = true
          /\ stop st' = st'
          /\ trace st' = trace (stop st) ++ sfx
          /\ SetTimeout ∉ sfx)
  /\ (stopped st = false -> timers st = 0 -> ws st <> Some CONNECTING ->
      forall acts : list (Action number),
        exists st' sfx,
          run_all acts (stop st) = Some st'
          /\ trace st' = trace (stop st) ++ sfx
          /\ (forall e, e ∈ sfx -> is_send e = false)
          /\ ws st' <> Some OPEN
          /\ (forall str,
                sendCommand str st' = set_commands (commands st' ++ [str]) st')
          /\ (forall message (w : Waiter number),
                trace (sendMessage message w st') = trace st'
                /\ commands (sendMessage message w st')
                   = commands st' ++ [JSON_stringify message])).
Proof.
  assert (Hguard : forall s : Client number, stopped s = true -> stop s = s).
  { intros s Hs. unfold stop. by rewrite Hs. }
  assert (Hstopped : stopped (stop st) = true).
  { unfold stop. destruct (stopped st) eqn:Hs; [done |].
    by destruct (is_open _). }
  split_and!.
  - apply Hguard.
  - by apply Hguard.
  - done.
  - unfold stop. destruct (stopped st) eqn:Hs; simpl.
    + by rewrite app_nil_r.
    + change (is_open (set_stopped true st)) with (is_open st).
      destruct (is_open st); simpl; [done |]. by rewrite app_nil_r.
  - intros acts. destruct (run_all_total acts (stop st)) as [st' Hrun].
    destruct (stopped_run_all _ _ _ Hstopped Hrun) as (Hs' & sfx & Htr & Hno).
    exists st', sfx. split_and!; auto.
  - intros Hrunning Htimers Hws acts.
    assert (Hdown : shut_down (stop st)).
    { unfold shut_down, stop. rewrite Hrunning.
      change (is_open (set_stopped true st)) with (is_open st).
      destruct (is_open st) eqn:Hopen; simpl.
      - auto.
      - split_and!; [done | done |].
        destruct (ws st) as [[] |] eqn:Hw; auto.
        + done.
        + unfold is_open in Hopen. by rewrite Hw in Hopen. }
    destruct (run_all_total acts (stop st)) as [st' Hrun].
    destruct (shut_down_run_all _ _ _ Hdown Hrun)
      as ((_ & _ & Hws') & sfx & Htr & Hno).
    assert (Hclosed : is_open st' = false).
    { unfold is_open. by destruct Hws' as [-> | [-> | ->]]. }
    exists st', sfx. split_and!; [done | done | done | | |].
    + by destruct Hws' as [-> | [-> | ->]].
    + intros str. unfold sendCommand. by rewrite Hclosed.
    + intros message w. unfold sendMessage, sendCommand. by rewrite Hclosed.
Qed.

End AfterStop.


(** ** What runs keep *)

Section Persistence.
Context {number : Type} `{!JsNumber number} `{!ScreenGeometry number}
  `{!JsonText number}.
Implicit Types st : Client number.

Lemma fixed_handle (ev : Event number) st st' :
  handle ev st = Some st' ->
  udid st' = udid st
  /\ (calls_setScreenInfo ev = false -> screenInfo st' = screenInfo st).
Proof.
  destruct ev as [| | text | | c].
  - destruct (ws st) as [[] |] eqn:Hws;
      try (simpl; rewrite Hws; by intros [= <-]).
    rewrite handle_SocketOpen by done. by intros [= <-].
  - simpl. destruct (ws st) as [[] |]; intros [= <-]; try done;
      unfold onSocketClose; simpl; by destruct (stopped st).
  - simpl. destruct (ws st) as [[] |]; intros [= <-]; try done;
      unfold onSocketMessage; by repeat case_match.
  - simpl. destruct (timers st); by intros [= <-].
  - simpl. intros [= <-]. destruct c;
      try (match goal with
           | |- context [call ?c st] =>
               destruct (request_side_call c st ltac:(done) ltac:(done))
                 as (_ & _ & _ & -> & _ & -> & _)
           end; done).
    + done.
    + unfold call, stop. destruct (stopped st); [done |].
      by destruct (is_open _).
Qed.

Lemma fixed_run (evs : list (Event number)) st st' :
  run evs st = Some st' ->
  udid st' = udid st
  /\ (Forall (fun ev => calls_setScreenInfo ev = false) evs ->
      screenInfo st' = screenInfo st).
Proof.
  revert st. induction evs as [| ev evs IH]; intros st; simpl.
  - by intros [= <-].
  - unfold step. destruct (handle ev st) as [st1 |] eqn:Hh; [| discriminate].
    intros Hrun. destruct (fixed_handle _ _ _ Hh) as [Hu1 Hi1].
    destruct (request_side_drain st1) as (_ & _ & _ & Hu2 & _ & Hi2 & _).
    destruct (IH _ Hrun) as [Hu3 Hi3]. simpl in *.
    split; [congruence |].
    intros [Hev Hevs]%Forall_cons.
    rewrite Hi3, Hi2, Hi1; done.
Qed.

(** X9. The screen descriptor given to [setScreenInfo] is what
    [getScreenInfo] returns until the next [setScreenInfo]: closes,
    reconnects, [stop], replies and requests leave it alone.  The device
    identifier is never changed by any event. *)
Theorem screenInfo_and_udid_are_kept (info : ScreenInfo.t number)
    (evs : list (Event number)) st :
  Forall (fun ev => calls_setScreenInfo ev = false) evs ->
  exists st',
    run (Invoke (CallSetScreenInfo info) :: evs) st = Some st'
    /\ getScreenInfo st' = Some info
    /\ udid st' = udid st.
Proof.
  intros Hevs.
  destruct (run_total (Invoke (CallSetScreenInfo info) :: evs) st)
    as [st' Hrun].
  exists st'. split; [done |].
  simpl in Hrun. unfold step in Hrun. simpl in Hrun.
  destruct (request_side_drain (setScreenInfo info st))
    as (_ & _ & _ & Hu & _ & Hi & _).
  destruct (fixed_run _ _ _ Hrun) as [Hu' Hi'].
  unfold getScreenInfo. rewrite Hi', Hi, Hu', Hu by done. done.
Qed.

Lemma pending_handle (k : Z) (ev : Event number) st st' :
  (k <= messageId st)%Z -> answers k ev = false ->
  handle ev st = Some st' ->
  wait st' !! k = wait st !! k /\ (k <= messageId st')%Z.
Proof.
  intros Hk Hev. destruct ev as [| | text | | c].
  - destruct (ws st) as [[] |] eqn:Hws;
      try (simpl; rewrite Hws; by intros [= <-]).
    rewrite handle_SocketOpen by done. by intros [= <-].
  - simpl. destruct (ws st) as [[] |]; intros [= <-]; try done;
      unfold onSocketClose; simpl; by destruct (stopped st).
  - simpl. destruct (ws st) as [[] |]; intros [= <-]; try done;
      unfold onSocketMessage; repeat case_match; simpl; try done;
      simpl in Hev; apply bool_decide_eq_false in Hev;
      by rewrite lookup_delete_ne.
  - simpl. destruct (timers st); by intros [= <-].
  - simpl. intros [= <-]. destruct c;
      try (match goal with
           | |- context [call ?c st] =>
               destruct (request_side_call c st ltac:(done) ltac:(done))
                 as (_ & _ & _ & _ & _ & _ & _ & _ & Hm & Hw & _)
           end; split; [by apply Hw | lia]).
    + done.
    + unfold call, stop. destruct (stopped st); [done |].
      by destruct (is_open _).
Qed.

Lemma pending_perform (k : Z) (a : Action number) st st' :
  (k <= messageId st)%Z -> concerns k a = false ->
  perform a st = Some st' ->
  wait st' !! k = wait st !! k /\ (k <= messageId st')%Z.
Proof.
  intros Hk Ha. destruct a as [ev | p message]; simpl in *.
  - unfold step. destruct (handle ev st) as [st1 |] eqn:Hh; [| discriminate].
    intros [= <-]. destruct (pending_handle _ _ _ _ Hk Ha Hh) as [Hw1 Hk1].
    destruct (request_side_drain st1)
      as (_ & _ & _ & _ & _ & _ & _ & _ & Hm2 & Hw2 & _).
    simpl in *. split; [| lia]. by rewrite Hw2, Hw1.
  - intros [= <-]. apply bool_decide_eq_false in Ha.
    destruct (sendMessage_registers message (AwaitRequest p) st) as [Hw Hm].
    destruct (request_side_drain (sendMessage message (AwaitRequest p) st))
      as (_ & _ & _ & _ & _ & _ & _ & _ & Hm2 & Hw2 & _).
    simpl in *. split; [| lia].
    rewrite Hw2 by lia. by rewrite Hw, lookup_insert_ne.
Qed.

Lemma pending_run_all (k : Z) (acts : list (Action number)) st st' :
  (k <= messageId st)%Z -> Forall (fun a => concerns k a = false) acts ->
  run_all acts st = Some st' ->
  wait st' !! k = wait st !! k.
Proof.
  intros Hk Hacts. revert st Hk. induction Hacts as [| a acts Ha _ IH];
    intros st Hk; simpl.
  - by intros [= <-].
  - destruct (perform a st) as [st1 |] eqn:Hp; [| discriminate].
    intros Hrun. destruct (pending_perform _ _ _ _ Hk Ha Hp) as [Hw1 Hk1].
    by rewrite (IH _ Hk1 Hrun).
Qed.

(** Where the keys of the wait table come from: an entry is older, or it
    sits under an identifier issued since, or a direct [sendMessage] put
    it there. *)
Lemma keys_perform (a : Action number) st st' :
  perform a st = Some st' ->
  (messageId st <= messageId st')%Z
  /\ forall k : Z, is_Some (wait st' !! k) ->
       is_Some (wait st !! k) \/ (messageId st < k <= messageId st')%Z
       \/ sends_under k a = true.
Proof.
  destruct a as [ev | p message]; simpl.
  - intros (_ & _ & Hm & Hw & _)%evolves_step. split; [done |].
    intros k Hk. destruct (Hw k Hk); auto.
  - intros [= <-].
    destruct (sendMessage_registers message (AwaitRequest p) st) as [Hw0 Hm0].
    pose proof (evolves_drain (sendMessage message (AwaitRequest p) st))
      as (_ & _ & Hm & Hw & _).
    split; [lia |]. intros k Hk. destruct (Hw k Hk) as [Hold | Hnew].
    + rewrite Hw0 in Hold.
      destruct (decide (Message.id message = k)) as [Heq | Hne].
      * right. right. by apply bool_decide_eq_true.
      * left. by rewrite lookup_insert_ne in Hold.
    + right. left. lia.
Qed.

Lemma keys_run_all (acts : list (Action number)) st st' :
  run_all acts st = Some st' ->
  (messageId st <= messageId st')%Z
  /\ forall k : Z, is_Some (wait st' !! k) ->
       is_Some (wait st !! k) \/ (messageId st < k <= messageId st')%Z
       \/ exists a, a ∈ acts /\ sends_under k a = true.
Proof.
  revert st. induction acts as [| a acts IH]; intros st; simpl.
  - intros [= <-]. split; [done |]. auto.
  - destruct (perform a st) as [st1 |] eqn:Hp; [| discriminate].
    intros Hrun. destruct (keys_perform _ _ _ Hp) as [Hm1 Hw1].
    destruct (IH _ Hrun) as [Hm Hw]. split; [lia |].
    intros k Hk. destruct (Hw k Hk) as [Hold | [Hnew | (b & Hb & Hsend)]].
    + destruct (Hw1 k Hold) as [? | [? | ?]]; [by left | right; left; lia |].
      right. right. exists a. split; [apply elem_of_cons; auto | done].
    + right. left. lia.
    + right. right. exists b. split; [apply elem_of_cons; auto | done].
Qed.

(** X10. A pending request stays pending, with the same resolver, until
    a frame with its identifier arrives or a caller hands [sendMessage] a
    message with the same identifier: no close, reconnect, [stop], timer,
    other reply or other request removes or replaces its entry, and
    nothing ever times it out. *)
Theorem pending_request_waits_for_its_reply (k : Z) (w : Waiter number)
    (acts : list (Action number)) st :
  wait st !! k = Some w -> (k <= messageId st)%Z ->
  Forall (fun a => concerns k a = false) acts ->
  exists st', run_all acts st = Some st' /\ wait st' !! k = Some w.
Proof.
  intros Hw Hk Hacts. destruct (run_all_total acts st) as [st' Hrun].
  exists st'. split; [done |].
  by rewrite (pending_run_all _ _ _ _ Hk Hacts Hrun).
Qed.

(** X11. In every run of a constructed client, direct calls of
    [sendMessage] included, each pending entry sits under an identifier
    that [getNextId] has issued (a positive integer not above the
    counter) or under the identifier of a message that a caller handed
    to [sendMessage] in that run. *)
Theorem pending_identifiers_were_issued name (acts : list (Action number)) :
  exists st',
    run_all acts (constructor name) = Some st'
    /\ forall (k : Z) (w : Waiter number),
         wait st' !! k = Some w ->
         (0 < k <= messageId st')%Z
         \/ exists p message,
              CallSendMessage p message ∈ acts /\ Message.id message = k.
Proof.
  destruct (run_all_total acts (constructor name)) as [st' Hrun].
  exists st'. split; [done |]. intros k w Hk.
  destruct (keys_run_all _ _ _ Hrun) as [_ Hw].
  destruct (Hw k ltac:(eauto)) as [[w' Hold] | [Hnew | (a & Ha & Hsend)]].
  - simpl in Hold. by rewrite lookup_empty in Hold.
  - by left.
  - right. destruct a as [ev | p message]; [done |].
    exists p, message. split; [done |]. by apply bool_decide_eq_true in Hsend.
Qed.

End Persistence.

(** ** Requests and replies, end to end *)

Section RoundTrips.
Context {number : Type} `{!JsNumber number} `{!ScreenGeometry number}
  `{!JsonText number}.
Implicit Types st : Client number.

Lemma client_eq st st' :
  screenInfo st = screenInfo st' -> screenWidth st = screenWidth st' ->
  udid st = udid st' -> stopped st = stopped st' ->
  commands st = commands st' -> hasSession st = hasSession st' ->
  messageId st = messageId st' -> wait st = wait st' -> ws st = ws st' ->
  timers st = timers st' -> jobs st = jobs st' -> trace st = trace st' ->
  st = st'.
Proof. destruct st, st'; simpl; intros; by subst. Qed.

(** A device request on an open transport: one frame written, one entry
    registered, under the next identifier. *)
Lemma requestWebDriverAgent_open method args (w : Waiter number) st :
  hasSession st = true -> ws st = Some OPEN ->
  requestWebDriverAgent method args w st
  = inr (set_wait (<[(messageId st + 1)%Z := w]> (wait st))
           (log (WsSend (request_frame (messageId st + 1) method args))
              (set_messageId (messageId st + 1)%Z st))).
Proof.
  intros Hs Hws. unfold requestWebDriverAgent, getNextId, sendMessage,
    sendCommand, is_open.
  rewrite Hs. simpl. by rewrite Hws.
Qed.

Lemma call_jobs (c : Call number) st : jobs (call c st) = jobs st.
Proof.
  destruct c;
    try (match goal with
         | |- context [call ?c st] =>
             by destruct (request_side_call c st ltac:(done) ltac:(done))
               as (_ & _ & -> & _)
         end).
  - done.
  - unfold call, stop. destruct (stopped st); [done |].
    by destruct (is_open _).
Qed.

Lemma step_Invoke (c : Call number) st :
  jobs st = [] -> step (Invoke c) st = Some (call c st).
Proof.
  intros Hj. unfold step. simpl. rewrite drain_idle; [done |].
  by rewrite call_jobs.
Qed.

Lemma step_reply (json : Message.t number) (w : Waiter number) st :
  ws st = Some OPEN -> jobs st = [] ->
  wait st !! Message.id json = Some w ->
  step (SocketMessage (Some json)) st
  = Some (react (w, json) (set_wait (delete (Message.id json) (wait st)) st)).
Proof.
  intros Hws Hj Hw. unfold step, handle. rewrite Hws.
  rewrite (onSocketMessage_matched _ _ _ Hw).
  unfold drain. cbn [jobs set_jobs]. rewrite Hj.
  cbn [app fold_left]. do 2 f_equal. by apply client_eq.
Qed.

Lemma round_trip_of (c : Call number) (p : Promise) (method : WDAMethod)
    (args : Args number) (reply : Message.t number) st :
  (call c st = request_for p method args st) ->
  hasSession st = true -> ws st = Some OPEN -> jobs st = [] ->
  wait st !! (messageId st + 1)%Z = None ->
  Message.id reply = (messageId st + 1)%Z ->
  run [Invoke c; SocketMessage (Some reply)] st
  = Some (set_trace
            (trace st
               ++ [WsSend (request_frame (messageId st + 1) method args);
                   Settle p (Fulfilled (Reply reply))])
            (set_messageId (messageId st + 1)%Z st)).
Proof.
  intros Hcall Hs Hws Hj Hfresh Hid.
  cbn [run]. rewrite step_Invoke by done. rewrite Hcall.
  unfold request_for. rewrite requestWebDriverAgent_open by done.
  erewrite step_reply;
    [| done | done | rewrite Hid; cbn [wait set_wait]; apply lookup_insert_eq].
  f_equal. rewrite Hid. apply client_eq; simpl; try done.
  - by apply delete_insert_id.
  - by rewrite <- app_assoc.
Qed.

(** X12. A device request and its reply, end to end: on an open
    transport with a session, [requestWebDriverAgent] writes one frame
    under the next identifier, and the reply with that identifier fulfils
    the caller's promise with the whole reply; afterwards the client is
    as before except for the counter and the trace.  [pressButton] is
    the same with the button's name as argument. *)
Theorem request_reply_round_trip (p : Promise) (method : WDAMethod)
    (args : Args number) (reply : Message.t number) st :
  hasSession st = true -> ws st = Some OPEN -> jobs st = [] ->
  wait st !! (messageId st + 1)%Z = None ->
  Message.id reply = (messageId st + 1)%Z ->
  run [Invoke (CallRequestWebDriverAgent p method args);
       SocketMessage (Some reply)] st
  = Some (set_trace
            (trace st
               ++ [WsSend (request_frame (messageId st + 1) method args);
                   Settle p (Fulfilled (Reply reply))])
            (set_messageId (messageId st + 1)%Z st))
  /\ forall name,
       run [Invoke (CallPressButton p name); SocketMessage (Some reply)] st
       = Some (set_trace
                 (trace st
                    ++ [WsSend (request_frame (messageId st + 1) PRESS_BUTTON
                                  (ButtonArgs name));
                        Settle p (Fulfilled (Reply reply))])
                 (set_messageId (messageId st + 1)%Z st)).
Proof.
  intros Hs Hws Hj Hfresh Hid. split; [| intros name];
    by apply round_trip_of.
Qed.

(** X13. Replies are matched by identifier, not by order: of two
    requests on the wire the second may be answered first, and each
    caller still gets the reply that carries its own identifier. *)
Theorem replies_may_arrive_out_of_order (p1 p2 : Promise)
    (method1 method2 : WDAMethod) (args1 args2 : Args number)
    (reply1 reply2 : Message.t number) st :
  hasSession st = true -> ws st = Some OPEN -> jobs st = [] ->
  wait st !! (messageId st + 1)%Z = None ->
  wait st !! (messageId st + 2)%Z = None ->
  Message.id reply1 = (messageId st + 1)%Z ->
  Message.id reply2 = (messageId st + 2)%Z ->
  run [Invoke (CallRequestWebDriverAgent p1 method1 args1);
       Invoke (CallRequestWebDriverAgent p2 method2 args2);
       SocketMessage (Some reply2);
       SocketMessage (Some reply1)] st
  = Some (set_trace
            (trace st
               ++ [WsSend (request_frame (messageId st + 1) method1 args1);
                   WsSend (request_frame (messageId st + 2) method2 args2);
                   Settle p2 (Fulfilled (Reply reply2));
                   Settle p1 (Fulfilled (Reply reply1))])
            (set_messageId (messageId st + 2)%Z st)).
Proof.
  intros Hs Hws Hj Hfresh1 Hfresh2 Hid1 Hid2.
  cbn [run]. rewrite step_Invoke by done.
  unfold call, request_for. rewrite requestWebDriverAgent_open by done.
  rewrite step_Invoke by done.
  unfold call, request_for. rewrite requestWebDriverAgent_open by done.
  cbn [messageId set_wait log set_trace set_messageId wait trace].
  replace (messageId st + 1 + 1)%Z with (messageId st + 2)%Z by lia.
  erewrite step_reply;
    [| done | done | rewrite Hid2; cbn [wait set_wait]; apply lookup_insert_eq].
  cbn [react settle log].
  erewrite step_reply;
    [| done | done
     | rewrite Hid1, Hid2; unfold settle, log; cbn [wait set_wait set_trace];
       rewrite lookup_delete_ne, lookup_insert_ne by lia;
       apply lookup_insert_eq].
  f_equal. rewrite Hid1, Hid2. apply client_eq; simpl; try done.
  - rewrite delete_insert_id.
    + by apply delete_insert_id.
    + by rewrite lookup_insert_ne by lia.
  - by rewrite <- !app_assoc.
Qed.

End RoundTrips.

(** ** The screen width *)

Section WidthAndReconnect.
Context {number : Type} `{!JsNumber number} `{!ScreenGeometry number}
  `{!JsonText number}.
Implicit Types st : Client number.

(** [performClick] without a cached width, up to its [await]. *)
Lemma performClick_asks (p : Promise) (position : Position.t number)
    (info : ScreenInfo.t number) st :
  hasSession st = true -> ws st = Some OPEN ->
  screenInfo st = Some info -> num_truthy (screenWidth st) = false ->
  performClick p position st
  = set_wait (<[(messageId st + 1)%Z
                  := AwaitScreenWidth (ThenClick p position)]> (wait st))
      (log (WsSend (request_frame (messageId st + 1) GET_SCREEN_WIDTH NoArgs))
         (set_messageId (messageId st + 1)%Z st)).
Proof.
  intros Hs Hws Hinfo Hwidth. unfold performClick, getScreenWidth.
  rewrite Hinfo, Hwidth. by rewrite requestWebDriverAgent_open.
Qed.

(** X14. The screen width is asked for once and kept: a click on a
    client that has no width yet sends the width query; when the reply
    brings a number, the width is stored and the click request follows
    under the next identifier, with the coordinates the transform gives
    for that width. *)
Theorem performClick_fetches_the_width (p : Promise)
    (position : Position.t number) (reply : Message.t number)
    (info : ScreenInfo.t number) (width : number) (point : Point.t number) st :
  hasSession st = true -> ws st = Some OPEN -> jobs st = [] ->
  wait st !! (messageId st + 1)%Z = None ->
  screenInfo st = Some info -> num_truthy (screenWidth st) = false ->
  Message.id reply = (messageId st + 1)%Z ->
  Message.data reply = ResultData true (Some width) ->
  calculatePhysicalPoint info width position = Some point ->
  run [Invoke (CallPerformClick p position); SocketMessage (Some reply)] st
  = Some (set_wait (<[(messageId st + 2)%Z := AwaitRequest p]> (wait st))
            (set_trace
               (trace st
                  ++ [WsSend (request_frame (messageId st + 1)
                                GET_SCREEN_WIDTH NoArgs);
                      WsSend (request_frame (messageId st + 2) CLICK
                                (ClickArgs (Point.x point) (Point.y point)))])
               (set_messageId (messageId st + 2)%Z
                  (set_screenWidth width st)))).
Proof.
  intros Hs Hws Hj Hfresh Hinfo Hwidth Hid Hdata Hpoint.
  cbn [run]. rewrite step_Invoke by done.
  unfold call. rewrite (performClick_asks _ _ info) by done.
  erewrite step_reply;
    [| done | done | rewrite Hid; cbn [wait set_wait]; apply lookup_insert_eq].
  f_equal. unfold react, getScreenWidth_rest. rewrite Hdata.
  unfold performClick_rest. cbn [screenInfo set_screenWidth set_wait log
    set_trace set_messageId]. rewrite Hinfo, Hpoint.
  unfold request_for. rewrite requestWebDriverAgent_open by done.
  rewrite Hid. apply client_eq; simpl; try done;
    replace (messageId st + 1 + 1)%Z with (messageId st + 2)%Z by lia.
  - done.
  - by rewrite delete_insert_id.
  - by rewrite <- app_assoc.
Qed.

(** X15. With the width cached, a click sends one frame: the click
    request, under a fresh identifier, with the coordinates the transform
    gives for the cached width; a scroll likewise sends one scroll
    request with both transformed points.  No width query is made. *)
Theorem click_and_scroll_with_cached_width (p : Promise)
    (info : ScreenInfo.t number) st :
  hasSession st = true -> ws st = Some OPEN ->
  screenInfo st = Some info -> num_truthy (screenWidth st) = true ->
  (forall position point,
     calculatePhysicalPoint info (screenWidth st) position = Some point ->
     performClick p position st
     = set_wait (<[(messageId st + 1)%Z := AwaitRequest p]> (wait st))
         (log (WsSend (request_frame (messageId st + 1) CLICK
                         (ClickArgs (Point.x point) (Point.y point))))
            (set_messageId (messageId st + 1)%Z st)))
  /\ (forall from to fromPoint toPoint,
        calculatePhysicalPoint info (screenWidth st) from = Some fromPoint ->
        calculatePhysicalPoint info (screenWidth st) to = Some toPoint ->
        performScroll p from to st
        = set_wait (<[(messageId st + 1)%Z := AwaitRequest p]> (wait st))
            (log (WsSend (request_frame (messageId st + 1) SCROLL
                            (ScrollArgs fromPoint toPoint)))
               (set_messageId (messageId st + 1)%Z st))).
Proof.
  intros Hs Hws Hinfo Hwidth. split.
  - intros position point Hpoint.
    unfold performClick, performClick_rest. rewrite Hinfo, Hwidth, Hpoint.
    unfold request_for. by rewrite requestWebDriverAgent_open.
  - intros from to fromPoint toPoint Hfrom Hto.
    unfold performScroll, performScroll_rest.
    rewrite Hinfo, Hwidth, Hfrom, Hto.
    unfold request_for. by rewrite requestWebDriverAgent_open.
Qed.

(** X16. A width reply that does not report success with a number
    rejects the click: with "Invalid response" when the reply has data,
    with a [TypeError] when it has none (reading [data.success] throws).
    Either way no width is stored, no click request is sent, and the
    entry of the query is gone. *)
Theorem invalid_width_reply_rejects_the_click (p : Promise)
    (position : Position.t number) (reply : Message.t number)
    (info : ScreenInfo.t number) st :
  hasSession st = true -> ws st = Some OPEN -> jobs st = [] ->
  wait st !! (messageId st + 1)%Z = None ->
  screenInfo st = Some info -> num_truthy (screenWidth st) = false ->
  Message.id reply = (messageId st + 1)%Z ->
  (forall width, Message.data reply <> ResultData true (Some width)) ->
  run [Invoke (CallPerformClick p position); SocketMessage (Some reply)] st
  = Some (set_trace
            (trace st
               ++ [WsSend (request_frame (messageId st + 1)
                             GET_SCREEN_WIDTH NoArgs);
                   Settle p
                     (Rejected
                        match Message.data reply with
                        | NoData => TypeError
                        | _ => InvalidResponse
                        end)])
            (set_messageId (messageId st + 1)%Z st)).
Proof.
  intros Hs Hws Hj Hfresh Hinfo Hwidth Hid Hdata.
  cbn [run]. rewrite step_Invoke by done.
  unfold call. rewrite (performClick_asks _ _ info) by done.
  erewrite step_reply;
    [| done | done | rewrite Hid; cbn [wait set_wait]; apply lookup_insert_eq].
  f_equal. unfold react, getScreenWidth_rest.
  assert (Hbad : forall st0 : Client number,
            match Message.data reply with
            | NoData =>
                settle (promise_of (ThenClick p position))
                  (Rejected TypeError) st0
            | ResultData true (Some width) =>
                performClick_rest p position width (set_screenWidth width st0)
            | _ => settle (promise_of (ThenClick p position))
                     (Rejected InvalidResponse) st0
            end
            = settle p
                (Rejected
                   match Message.data reply with
                   | NoData => TypeError
                   | _ => InvalidResponse
                   end) st0).
  { intros st0. destruct (Message.data reply) as [| | [] [width |] |];
      try done.
    by destruct (Hdata width). }
  rewrite Hbad. rewrite Hid. apply client_eq; simpl; try done.
  - by apply delete_insert_id.
  - by rewrite <- app_assoc.
Qed.

End WidthAndReconnect.
(** ** Clicks and scrolls that send no request *)

Section FacadeClaims.
Context {number : Type} `{!JsNumber number} `{!ScreenGeometry number}
  `{!JsonText number}.
Implicit Types st : Client number.





End FacadeClaims.


(** ** Reconnecting *)

Section Reconnect.
Context {number : Type} `{!JsNumber number} `{!ScreenGeometry number}
  `{!JsonText number}.
Implicit Types st : Client number.

Lemma run_app (evs1 evs2 : list (Event number)) st :
  run (evs1 ++ evs2) st
  = match run evs1 st with
    | Some st1 => run evs2 st1
    | None => None
    end.
Proof.
  revert st. induction evs1 as [| ev evs1 IH]; intros st; simpl; [done |].
  destruct (step ev st); [apply IH | done].
Qed.

(** A device request without an open transport: the frame is queued. *)
Lemma requestWebDriverAgent_closed method args (w : Waiter number) st :
  hasSession st = true -> ws st <> Some OPEN ->
  requestWebDriverAgent method args w st
  = inr (set_wait (<[(messageId st + 1)%Z := w]> (wait st))
           (set_commands
              (commands st ++ [request_frame (messageId st + 1) method args])
              (set_messageId (messageId st + 1)%Z st))).
Proof.
  intros Hs Hws. unfold requestWebDriverAgent, getNextId, sendMessage,
    sendCommand, is_open.
  rewrite Hs. simpl. by destruct (ws st) as [[] |].
Qed.

Lemma run_requests_closed
    (requests : list (Promise * WDAMethod * Args number)) st :
  hasSession st = true -> ws st <> Some OPEN -> jobs st = [] ->
  exists st1,
    run (request_calls requests) st = Some st1
    /\ commands st1 = commands st ++ request_frames (messageId st) requests
    /\ trace st1 = trace st /\ ws st1 = ws st /\ timers st1 = timers st
    /\ stopped st1 = stopped st /\ hasSession st1 = true /\ jobs st1 = []
    /\ messageId st1 = (messageId st + Z.of_nat (length requests))%Z.
Proof.
  revert st. induction requests as [| [[p method] args] requests IH];
    intros st Hs Hws Hj.
  - exists st. simpl. rewrite app_nil_r. split_and!; try done. lia.
  - cbn [request_calls map run]. rewrite step_Invoke by done.
    unfold call, request_for. rewrite requestWebDriverAgent_closed by done.
    set (st1 := set_wait _ _).
    destruct (IH st1) as (st2 & Hrun & Hc & Ht & Hw & Htm & Hp & Hs2 & Hj2 & Hm);
      [done | done | done |].
    exists st2. fold (request_calls requests). rewrite Hrun.
    subst st1. simpl in *. split_and!; try done.
    + by rewrite Hc, <- app_assoc.
    + rewrite Hm. lia.
Qed.

(** X17. Requests made while the transport is down are delivered after
    the reconnect, in call order: a close of a running client arms the
    timer, the requests made meanwhile are queued under consecutive
    identifiers, the timer opens a new connection, and when it opens
    their frames are written one after the other and the queue is empty.
    The serializer is taken never to return the empty string. *)
Theorem requests_are_delivered_after_reconnect
    (requests : list (Promise * WDAMethod * Args number)) st :
  (forall m : Message.t number, str_truthy (JSON_stringify m) = true) ->
  hasSession st = true -> stopped st = false -> ws st = Some OPEN ->
  jobs st = [] -> commands st = [] ->
  exists st',
    run (SocketClose :: request_calls requests ++ [TimerFired; SocketOpen]) st
    = Some st'
    /\ trace st'
       = trace st
           ++ [EmitConnected false; ConsoleLog; SetTimeout; OpenNewConnection;
               EmitConnected true]
           ++ map WsSend (request_frames (messageId st) requests)
    /\ commands st' = []
    /\ ws st' = Some OPEN
    /\ messageId st' = (messageId st + Z.of_nat (length requests))%Z.
Proof.
  intros Hjson Hs Hp Hws Hj Hc.
  assert (Hframes : forall id reqs,
            Forall (fun str => str_truthy str = true)
              (request_frames id reqs)).
  { intros id reqs. revert id.
    induction reqs as [| [[p method] args] reqs IH]; intros id; simpl;
      constructor; [apply Hjson | apply IH]. }
  cbn [run]. unfold step at 1. cbn [handle]. rewrite Hws.
  set (closed := onSocketClose (set_ws (Some CLOSED) st)).
  assert (Hclosed : closed
            = set_timers (S (timers st))
                (set_trace
                   (trace st ++ [EmitConnected false; ConsoleLog; SetTimeout])
                   (set_ws (Some CLOSED) st))).
  { subst closed. unfold onSocketClose, log. simpl. rewrite Hp. simpl.
    apply client_eq; simpl; try done. by rewrite <- !app_assoc. }
  rewrite drain_idle by (rewrite Hclosed; done).
  rewrite run_app.
  destruct (run_requests_closed requests closed)
    as (st1 & Hrun & Hc1 & Ht1 & Hw1 & Htm1 & Hp1 & Hs1 & Hj1 & Hm1);
    [by rewrite Hclosed | by rewrite Hclosed | by rewrite Hclosed |].
  rewrite Hrun. rewrite Hclosed in Hc1, Ht1, Hw1, Htm1, Hm1. simpl in *.
  cbn [run]. unfold step at 1. cbn [handle]. rewrite Htm1.
  rewrite drain_idle by done.
  unfold step. rewrite handle_SocketOpen by done.
  rewrite drain_idle by done.
  eexists. split; [reflexivity |]. simpl.
  rewrite Hc1, Hc, Ht1. simpl.
  rewrite filter_all_truthy by apply Hframes.
  split_and!; try done. by rewrite <- !app_assoc.
Qed.

End Reconnect.

(** ** The further theorems at concrete clients *)

Example getChannelInitData_abcd :
  getChannelInitData "abcd"
  = Some (String.list_byte_of_string "WDAP"
            ++ [Byte.x04; Byte.x00; Byte.x00; Byte.x00]
            ++ String.list_byte_of_string "abcd").
Proof. vm_compute. reflexivity. Qed.

Lemma getChannelInitData_layout_witness :
  (Z.of_nat (length (stringToUtf8ByteArray "abcd")) < 2 ^ 32)%Z
  /\ (Z.of_nat (8 + length (stringToUtf8ByteArray "abcd")) <= MAX_LENGTH)%Z
  /\ exists data,
       getChannelInitData "abcd" = Some data
       /\ data
          = take 4 (String.list_byte_of_string WDAP ++ replicate 4 Byte.x00)
              ++ uint32_le (Z.of_nat (length (stringToUtf8ByteArray "abcd")))
              ++ stringToUtf8ByteArray "abcd"
       /\ length data = 8 + length (stringToUtf8ByteArray "abcd").
Proof.
  split; [vm_compute; reflexivity |].
  split; [vm_compute; discriminate |].
  apply (getChannelInitData_layout "abcd");
    [vm_compute; reflexivity | vm_compute; discriminate].
Defined.

Lemma getChannelInitData_reads_back_witness :
  (Z.of_nat (length (stringToUtf8ByteArray "abcd")) < 2 ^ 32)%Z
  /\ (Z.of_nat (8 + length (stringToUtf8ByteArray "abcd")) <= MAX_LENGTH)%Z
  /\ String.length WDAP = 4
  /\ exists data,
       getChannelInitData "abcd" = Some data
       /\ Buffer_readUInt32LE 4 data
          = Some (Z.of_nat (length (stringToUtf8ByteArray "abcd")))
       /\ drop 8 data = stringToUtf8ByteArray "abcd"
       /\ take 4 data = String.list_byte_of_string WDAP.
Proof.
  split; [vm_compute; reflexivity |].
  split; [vm_compute; discriminate |].
  split; [reflexivity |].
  destruct (getChannelInitData_reads_back "abcd")
    as (data & Hdata & Hsize & Hbody & Hcode);
    [vm_compute; reflexivity | vm_compute; discriminate |].
  exists data. split; [exact Hdata |]. split; [exact Hsize |].
  split; [exact Hbody | apply Hcode; reflexivity].
Defined.

Lemma queue_is_empty_while_open_witness :
  exists st',
    run [Invoke (CallRunWebDriverAgent 0%nat); SocketOpen]
      (constructor "iphone") = Some st'
    /\ ws st' = Some OPEN
    /\ commands st' = [].
Proof.
  destruct (queue_is_empty_while_open "iphone"
              [Invoke (CallRunWebDriverAgent 0%nat); SocketOpen])
    as (st' & Hrun & Hqueue).
  assert (Hst : Some st' = Some awaiting_session)
    by (rewrite <- Hrun; vm_compute; reflexivity).
  injection Hst as ->.
  exists awaiting_session. split; [exact Hrun |].
  split; [vm_compute; reflexivity | apply Hqueue; vm_compute; reflexivity].
Defined.

Lemma at_most_one_reconnect_pending_witness :
  exists st',
    run [SocketOpen; SocketClose] (constructor "iphone") = Some st'
    /\ timers st' = 1
    /\ ws st' = Some CLOSED.
Proof.
  destruct (at_most_one_reconnect_pending "iphone" [SocketOpen; SocketClose])
    as (st' & Hrun & _ & Hclosed).
  assert (Hst : Some st' = Some reconnecting)
    by (rewrite <- Hrun; vm_compute; reflexivity).
  injection Hst as ->.
  exists reconnecting. split; [exact Hrun |].
  split; [vm_compute; reflexivity | apply Hclosed; vm_compute; reflexivity].
Defined.

Lemma every_effect_has_its_cause_witness :
  step SocketClose awaiting_session
  = Some (default fresh_client (step SocketClose awaiting_session))
  /\ exists sfx,
       trace (default fresh_client (step SocketClose awaiting_session))
       = trace awaiting_session ++ sfx
       /\ forall e, e ∈ sfx -> may_emit SocketClose awaiting_session e.
Proof.
  split; [vm_compute; reflexivity |].
  apply every_effect_has_its_cause. vm_compute; reflexivity.
Defined.

Lemma only_stop_closes_the_transport_witness :
  Forall (fun ev : Event Q => calls_stop ev = false)
    [SocketOpen; SocketMessage None;
     SocketMessage (Some (Message.mk 9 (OTHER_COMMAND "ping") (RunData "x")));
     SocketClose]
  /\ exists st' sfx,
       run [SocketOpen; SocketMessage None;
            SocketMessage
              (Some (Message.mk 9 (OTHER_COMMAND "ping") (RunData "x")));
            SocketClose] fresh_client = Some st'
       /\ trace st' = trace fresh_client ++ sfx
       /\ WsClose ∉ sfx.
Proof.
  assert (Hevs : Forall (fun ev : Event Q => calls_stop ev = false)
            [SocketOpen; SocketMessage None;
             SocketMessage
               (Some (Message.mk 9 (OTHER_COMMAND "ping") (RunData "x")));
             SocketClose]) by (repeat constructor).
  split; [exact Hevs |].
  apply only_stop_closes_the_transport. exact Hevs.
Defined.

Lemma stop_on_open_transport_is_final_witness :
  stopped awaiting_session = false
  /\ ws awaiting_session = Some OPEN
  /\ timers awaiting_session = 0
  /\ trace (stop awaiting_session) = trace awaiting_session ++ [WsClose]
  /\ exists st' sfx,
       run [SocketClose; TimerFired; SocketOpen;
            Invoke (CallRunWebDriverAgent 1%nat)] (stop awaiting_session)
       = Some st'
       /\ trace st' = trace (stop awaiting_session) ++ sfx
       /\ ws st' <> Some OPEN
       /\ forall e, e ∈ sfx ->
            is_send e = false /\ e <> WsClose /\ e <> OpenNewConnection
            /\ e <> SetTimeout /\ e <> EmitConnected true.
Proof.
  split; [vm_compute; reflexivity |].
  split; [vm_compute; reflexivity |].
  split; [vm_compute; reflexivity |].
  apply stop_on_open_transport_is_final; vm_compute; reflexivity.
Defined.

Lemma no_session_before_a_reply_witness :
  Forall (fun ev : Event Q => delivers_frame ev = false)
    [Invoke (CallRunWebDriverAgent 0%nat); SocketOpen; SocketClose;
     TimerFired; SocketOpen; SocketMessage None]
  /\ exists st',
       run [Invoke (CallRunWebDriverAgent 0%nat); SocketOpen; SocketClose;
            TimerFired; SocketOpen; SocketMessage None]
         (constructor "iphone") = Some st'
       /\ hasSession st' = false
       /\ forall p method args,
            request_for p method args st'
            = settle p (Rejected NoSession) st'.
Proof.
  assert (Hevs : Forall (fun ev : Event Q => delivers_frame ev = false)
            [Invoke (CallRunWebDriverAgent 0%nat); SocketOpen; SocketClose;
             TimerFired; SocketOpen; SocketMessage None])
    by (repeat constructor).
  split; [exact Hevs |].
  apply no_session_before_a_reply. exact Hevs.
Defined.

Lemma screenInfo_and_udid_are_kept_witness :
  Forall (fun ev : Event Q => calls_setScreenInfo ev = false)
    [SocketOpen; SocketClose; Invoke CallStop]
  /\ exists st',
       run [Invoke (CallSetScreenInfo portrait); SocketOpen; SocketClose;
            Invoke CallStop] fresh_client = Some st'
       /\ getScreenInfo st' = Some portrait
       /\ udid st' = udid fresh_client.
Proof.
  assert (Hevs : Forall (fun ev : Event Q => calls_setScreenInfo ev = false)
            [SocketOpen; SocketClose; Invoke CallStop])
    by (repeat constructor).
  split; [exact Hevs |].
  apply screenInfo_and_udid_are_kept. exact Hevs.
Defined.

Lemma request_reply_round_trip_witness :
  hasSession in_session = true
  /\ ws in_session = Some OPEN
  /\ jobs in_session = []
  /\ wait in_session !! (messageId in_session + 1)%Z = None
  /\ Message.id (reply 2 true None) = (messageId in_session + 1)%Z
  /\ run [Invoke (CallRequestWebDriverAgent 5%nat CLICK
                    (ClickArgs (1 # 1) (2 # 1)));
          SocketMessage (Some (reply 2 true None))] in_session
     = Some (set_trace
               (trace in_session
                  ++ [WsSend (request_frame (messageId in_session + 1) CLICK
                                (ClickArgs (1 # 1) (2 # 1)));
                      Settle 5%nat (Fulfilled (Reply (reply 2 true None)))])
               (set_messageId (messageId in_session + 1)%Z in_session)).
Proof.
  do 5 (split; [vm_compute; reflexivity |]).
  destruct (request_reply_round_trip 5%nat CLICK (ClickArgs (1 # 1) (2 # 1))
              (reply 2 true None) in_session) as [Hrequest _];
    [vm_compute; reflexivity .. |].
  exact Hrequest.
Defined.

Lemma replies_may_arrive_out_of_order_witness :
  hasSession in_session = true
  /\ ws in_session = Some OPEN
  /\ jobs in_session = []
  /\ wait in_session !! (messageId in_session + 1)%Z = None
  /\ wait in_session !! (messageId in_session + 2)%Z = None
  /\ run [Invoke (CallRequestWebDriverAgent 5%nat CLICK
                    (ClickArgs (1 # 1) (2 # 1)));
          Invoke (CallRequestWebDriverAgent 6%nat PRESS_BUTTON
                    (ButtonArgs "home"));
          SocketMessage (Some (reply 3 true None));
          SocketMessage (Some (reply 2 false None))] in_session
     = Some (set_trace
               (trace in_session
                  ++ [WsSend (request_frame (messageId in_session + 1) CLICK
                                (ClickArgs (1 # 1) (2 # 1)));
                      WsSend (request_frame (messageId in_session + 2)
                                PRESS_BUTTON (ButtonArgs "home"));
                      Settle 6%nat (Fulfilled (Reply (reply 3 true None)));
                      Settle 5%nat (Fulfilled (Reply (reply 2 false None)))])
               (set_messageId (messageId in_session + 2)%Z in_session)).
Proof.
  do 5 (split; [vm_compute; reflexivity |]).
  apply (replies_may_arrive_out_of_order 5%nat 6%nat CLICK PRESS_BUTTON
           (ClickArgs (1 # 1) (2 # 1)) (ButtonArgs "home")
           (reply 2 false None) (reply 3 true None) in_session);
    vm_compute; reflexivity.
Defined.

Lemma performClick_fetches_the_width_witness :
  hasSession with_screen = true
  /\ ws with_screen = Some OPEN
  /\ screenInfo with_screen = Some portrait
  /\ num_truthy (screenWidth with_screen) = false
  /\ Message.data (reply 2 true (Some (360 # 1)))
     = ResultData true (Some (360 # 1))
  /\ calculatePhysicalPoint portrait (360 # 1)
       (at_portrait (100 # 1) (200 # 1))
     = Some (Point.mk (33 # 1) (67 # 1))
  /\ run [Invoke (CallPerformClick 5%nat (at_portrait (100 # 1) (200 # 1)));
          SocketMessage (Some (reply 2 true (Some (360 # 1))))] with_screen
     = Some (set_wait
               (<[(messageId with_screen + 2)%Z := AwaitRequest 5%nat]>
                  (wait with_screen))
               (set_trace
                  (trace with_screen
                     ++ [WsSend (request_frame (messageId with_screen + 1)
                                   GET_SCREEN_WIDTH NoArgs);
                         WsSend (request_frame (messageId with_screen + 2)
                                   CLICK (ClickArgs (33 # 1) (67 # 1)))])
                  (set_messageId (messageId with_screen + 2)%Z
                     (set_screenWidth (360 # 1) with_screen)))).
Proof.
  do 6 (split; [vm_compute; reflexivity |]).
  apply (performClick_fetches_the_width 5%nat
           (at_portrait (100 # 1) (200 # 1))
           (reply 2 true (Some (360 # 1))) portrait (360 # 1)
           (Point.mk (33 # 1) (67 # 1)) with_screen);
    vm_compute; reflexivity.
Defined.

Lemma click_and_scroll_with_cached_width_witness :
  hasSession with_width = true
  /\ ws with_width = Some OPEN
  /\ screenInfo with_width = Some portrait
  /\ num_truthy (screenWidth with_width) = true
  /\ performClick 5%nat (at_portrait (100 # 1) (200 # 1)) with_width
     = set_wait
         (<[(messageId with_width + 1)%Z := AwaitRequest 5%nat]>
            (wait with_width))
         (log (WsSend (request_frame (messageId with_width + 1) CLICK
                         (ClickArgs (33 # 1) (67 # 1))))
            (set_messageId (messageId with_width + 1)%Z with_width))
  /\ performScroll 5%nat (at_portrait (100 # 1) (200 # 1))
       (at_portrait (0 # 1) (0 # 1)) with_width
     = set_wait
         (<[(messageId with_width + 1)%Z := AwaitRequest 5%nat]>
            (wait with_width))
         (log (WsSend (request_frame (messageId with_width + 1) SCROLL
                         (ScrollArgs (Point.mk (33 # 1) (67 # 1))
                            (Point.mk (0 # 1) (0 # 1)))))
            (set_messageId (messageId with_width + 1)%Z with_width)).
Proof.
  destruct (click_and_scroll_with_cached_width 5%nat portrait with_width)
    as [Hclick Hscroll]; [vm_compute; reflexivity .. |].
  do 4 (split; [vm_compute; reflexivity |]).
  split.
  - apply (Hclick _ (Point.mk (33 # 1) (67 # 1))). vm_compute; reflexivity.
  - apply (Hscroll _ _ (Point.mk (33 # 1) (67 # 1)) (Point.mk (0 # 1) (0 # 1)));
      vm_compute; reflexivity.
Defined.

Lemma requests_are_delivered_after_reconnect_witness :
  (forall m : Message.t Q, str_truthy (JSON_stringify m) = true)
  /\ hasSession in_session = true
  /\ stopped in_session = false
  /\ ws in_session = Some OPEN
  /\ commands in_session = []
  /\ exists st',
       run (SocketClose
              :: request_calls
                   [(5%nat, CLICK, ClickArgs (1 # 1) (2 # 1));
                    (6%nat, PRESS_BUTTON, ButtonArgs "home")]
              ++ [TimerFired; SocketOpen]) in_session = Some st'
       /\ trace st'
          = trace in_session
              ++ [EmitConnected false; ConsoleLog; SetTimeout;
                  OpenNewConnection; EmitConnected true]
              ++ map WsSend
                   (request_frames (messageId in_session)
                      [(5%nat, CLICK, ClickArgs (1 # 1) (2 # 1));
                       (6%nat, PRESS_BUTTON, ButtonArgs "home")])
       /\ commands st' = []
       /\ ws st' = Some OPEN
       /\ messageId st' = (messageId in_session + Z.of_nat 2)%Z.
Proof.
  assert (Hjson : forall m : Message.t Q, str_truthy (JSON_stringify m) = true)
    by (intros m; reflexivity).
  split; [exact Hjson |].
  do 4 (split; [vm_compute; reflexivity |]).
  apply (requests_are_delivered_after_reconnect
           [(5%nat, CLICK, ClickArgs (1 # 1) (2 # 1));
            (6%nat, PRESS_BUTTON, ButtonArgs "home")] in_session);
    first [exact Hjson | vm_compute; reflexivity].
Defined.

Lemma pending_request_waits_for_its_reply_witness :
  wait awaiting_session !! 1%Z = Some (AwaitRunWda 0%nat)
  /\ (1 <= messageId awaiting_session)%Z
  /\ Forall (fun a : Action Q => concerns 1 a = false)
       [Occurs (SocketMessage (Some (reply 7 true None)));
        CallSendMessage 4%nat
          (Message.mk 5 REQUEST_WDA (WdaData GET_SCREEN_WIDTH NoArgs));
        Occurs SocketClose; Occurs TimerFired; Occurs SocketOpen;
        Occurs (Invoke CallStop)]
  /\ exists st',
       run_all
         [Occurs (SocketMessage (Some (reply 7 true None)));
          CallSendMessage 4%nat
            (Message.mk 5 REQUEST_WDA (WdaData GET_SCREEN_WIDTH NoArgs));
          Occurs SocketClose; Occurs TimerFired; Occurs SocketOpen;
          Occurs (Invoke CallStop)] awaiting_session = Some st'
       /\ wait st' !! 1%Z = Some (AwaitRunWda 0%nat).
Proof.
  assert (Hacts : Forall (fun a : Action Q => concerns 1 a = false)
            [Occurs (SocketMessage (Some (reply 7 true None)));
             CallSendMessage 4%nat
               (Message.mk 5 REQUEST_WDA (WdaData GET_SCREEN_WIDTH NoArgs));
             Occurs SocketClose; Occurs TimerFired; Occurs SocketOpen;
             Occurs (Invoke CallStop)])
    by (repeat constructor).
  split; [vm_compute; reflexivity |].
  split; [vm_compute; discriminate |].
  split; [exact Hacts |].
  apply pending_request_waits_for_its_reply;
    [vm_compute; reflexivity | vm_compute; discriminate | exact Hacts].
Defined.

Lemma pending_identifiers_were_issued_witness :
  exists st',
    run_all
      [Occurs (Invoke (CallRunWebDriverAgent 0%nat));
       CallSendMessage 4%nat
         (Message.mk 40 REQUEST_WDA (WdaData GET_SCREEN_WIDTH NoArgs))]
      (constructor "iphone") = Some st'
    /\ messageId st' = 1%Z
    /\ wait st' !! 1%Z = Some (AwaitRunWda 0%nat)
    /\ wait st' !! 40%Z = Some (AwaitRequest 4%nat)
    /\ ((0 < 1 <= messageId st')%Z
        \/ exists p (message : Message.t Q),
             CallSendMessage p message
               ∈ [Occurs (Invoke (CallRunWebDriverAgent 0%nat));
                  CallSendMessage 4%nat
                    (Message.mk 40 REQUEST_WDA
                       (WdaData GET_SCREEN_WIDTH NoArgs))]
             /\ Message.id message = 1%Z)
    /\ ((0 < 40 <= messageId st')%Z
        \/ exists p (message : Message.t Q),
             CallSendMessage p message
               ∈ [Occurs (Invoke (CallRunWebDriverAgent 0%nat));
                  CallSendMessage 4%nat
                    (Message.mk 40 REQUEST_WDA
                       (WdaData GET_SCREEN_WIDTH NoArgs))]
             /\ Message.id message = 40%Z).
Proof.
  destruct (pending_identifiers_were_issued "iphone"
              [Occurs (Invoke (CallRunWebDriverAgent 0%nat));
               CallSendMessage 4%nat
                 (Message.mk 40 REQUEST_WDA (WdaData GET_SCREEN_WIDTH NoArgs))])
    as (st' & Hrun & Hissued).
  exists st'. split; [exact Hrun |].
  assert (Hst : Some st'
                = Some (sendMessage
                          (Message.mk 40 REQUEST_WDA
                             (WdaData GET_SCREEN_WIDTH NoArgs))
                          (AwaitRequest 4%nat) first_request))
    by (rewrite <- Hrun; vm_compute; reflexivity).
  injection Hst as Hst.
  assert (Hfirst : wait st' !! 1%Z = Some (AwaitRunWda 0%nat))
    by (rewrite Hst; vm_compute; reflexivity).
  assert (Hdirect : wait st' !! 40%Z = Some (AwaitRequest 4%nat))
    by (rewrite Hst; vm_compute; reflexivity).
  split; [rewrite Hst; vm_compute; reflexivity |].
  split; [exact Hfirst |].
  split; [exact Hdirect |].
  split; [exact (Hissued _ _ Hfirst) | exact (Hissued _ _ Hdirect)].
Defined.
Lemma invalid_width_reply_rejects_the_click_witness :
  hasSession with_screen = true
  /\ ws with_screen = Some OPEN
  /\ jobs with_screen = []
  /\ wait with_screen !! (messageId with_screen + 1)%Z = None
  /\ screenInfo with_screen = Some portrait
  /\ num_truthy (screenWidth with_screen) = false
  /\ (forall width : Q,
        Message.data (reply 2 false None) <> ResultData true (Some width))
  /\ (forall width : Q,
        Message.data (Message.mk 2 REQUEST_WDA (@NoData Q))
        <> ResultData true (Some width))
  /\ run [Invoke (CallPerformClick 5%nat (at_portrait (100 # 1) (200 # 1)));
          SocketMessage (Some (reply 2 false None))] with_screen
     = Some (set_trace
               (trace with_screen
                  ++ [WsSend (request_frame (messageId with_screen + 1)
                                GET_SCREEN_WIDTH NoArgs);
                      Settle 5%nat (Rejected InvalidResponse)])
               (set_messageId (messageId with_screen + 1)%Z with_screen))
  /\ run [Invoke (CallPerformClick 5%nat (at_portrait (100 # 1) (200 # 1)));
          SocketMessage (Some (Message.mk 2 REQUEST_WDA (@NoData Q)))]
       with_screen
     = Some (set_trace
               (trace with_screen
                  ++ [WsSend (request_frame (messageId with_screen + 1)
                                GET_SCREEN_WIDTH NoArgs);
                      Settle 5%nat (Rejected TypeError)])
               (set_messageId (messageId with_screen + 1)%Z with_screen)).
Proof.
  assert (Hbad : forall width : Q,
            Message.data (reply 2 false None)
            <> ResultData true (Some width))
    by (intros width; discriminate).
  assert (Hnone : forall width : Q,
            Message.data (Message.mk 2 REQUEST_WDA (@NoData Q))
            <> ResultData true (Some width))
    by (intros width; discriminate).
  do 6 (split; [vm_compute; reflexivity |]).
  split; [exact Hbad |].
  split; [exact Hnone |].
  split.
  - apply (invalid_width_reply_rejects_the_click 5%nat
             (at_portrait (100 # 1) (200 # 1)) (reply 2 false None) portrait
             with_screen);
      [vm_compute; reflexivity .. | exact Hbad].
  - apply (invalid_width_reply_rejects_the_click 5%nat
             (at_portrait (100 # 1) (200 # 1))
             (Message.mk 2 REQUEST_WDA (@NoData Q)) portrait with_screen);
      [vm_compute; reflexivity .. | exact Hnone].
Defined.
(** ** Dispatch, clicks and [stop] at concrete clients *)

Lemma dispatch_completes_exactly_the_matching_request_witness :
  wait awaiting_session !! Message.id (reply 1 true (Some (360 # 1)))
  = Some (AwaitRunWda 0%nat)
  /\ (Message.id (reply 1 true (Some (360 # 1)))
      <= messageId awaiting_session)%Z
  /\ Forall
       (fun a : Action Q =>
          sends_under (Message.id (reply 1 true (Some (360 # 1)))) a = false)
       [CallSendMessage 4%nat
          (Message.mk 5 REQUEST_WDA (WdaData GET_SCREEN_WIDTH NoArgs));
        Occurs (Invoke (CallRunWebDriverAgent 1%nat));
        Occurs SocketClose;
        CallSendMessage 6%nat
          (Message.mk 2 REQUEST_WDA (WdaData GET_SCREEN_WIDTH NoArgs))]
  /\ run [Invoke (CallRunWebDriverAgent 0%nat); SocketOpen]
       (constructor "iphone") = Some awaiting_session
  /\ (exists st'',
        run_all
          [CallSendMessage 4%nat
             (Message.mk 5 REQUEST_WDA (WdaData GET_SCREEN_WIDTH NoArgs));
           Occurs (Invoke (CallRunWebDriverAgent 1%nat));
           Occurs SocketClose;
           CallSendMessage 6%nat
             (Message.mk 2 REQUEST_WDA (WdaData GET_SCREEN_WIDTH NoArgs))]
          (drain (onSocketMessage (Some (reply 1 true (Some (360 # 1))))
                    awaiting_session)) = Some st''
        /\ wait st'' !! Message.id (reply 1 true (Some (360 # 1))) = None)
  /\ exists st'',
       run [Invoke (CallRunWebDriverAgent 1%nat); SocketClose; TimerFired;
            SocketOpen]
         (drain (onSocketMessage (Some (reply 1 true (Some (360 # 1))))
                   awaiting_session)) = Some st''
       /\ wait st'' !! Message.id (reply 1 true (Some (360 # 1))) = None.
Proof.
  assert (Hissued : (Message.id (reply 1 true (Some (360 # 1)))
                     <= messageId awaiting_session)%Z)
    by (vm_compute; discriminate).
  assert (Hafter : Forall
            (fun a : Action Q =>
               sends_under (Message.id (reply 1 true (Some (360 # 1)))) a
               = false)
            [CallSendMessage 4%nat
               (Message.mk 5 REQUEST_WDA (WdaData GET_SCREEN_WIDTH NoArgs));
             Occurs (Invoke (CallRunWebDriverAgent 1%nat));
             Occurs SocketClose;
             CallSendMessage 6%nat
               (Message.mk 2 REQUEST_WDA (WdaData GET_SCREEN_WIDTH NoArgs))])
    by (repeat constructor).
  split; [vm_compute; reflexivity |].
  split; [exact Hissued |].
  split; [exact Hafter |].
  split; [vm_compute; reflexivity |].
  destruct (dispatch_completes_exactly_the_matching_request
              (reply 1 true (Some (360 # 1))) (AwaitRunWda 0%nat)
              awaiting_session) as (_ & _ & _ & _ & _ & Hwide & Hlater);
    [vm_compute; reflexivity |].
  split.
  - exact (Hwide Hissued _ Hafter).
  - apply (Hlater "iphone" [Invoke (CallRunWebDriverAgent 0%nat); SocketOpen]).
    vm_compute; reflexivity.
Defined.

(** C3 fails for a caller of the public [sendMessage] that picks its own
    identifier.  Request [1] is pending and its reply is delivered, which
    removes the entry.  A direct [sendMessage] of a message with
    identifier [1] then registers under [1] again: the table holds an
    entry for an identifier whose response was delivered, and the next
    frame with identifier [1] removes an entry under [1] a second
    time. *)
Lemma sendMessage_can_reuse_an_answered_identifier :
  wait awaiting_session !! 1%Z = Some (AwaitRunWda 0%nat)
  /\ (exists answered,
        run_all [Occurs (SocketMessage (Some (reply 1 true None)))]
          awaiting_session = Some answered
        /\ trace answered
           = trace awaiting_session
               ++ [Settle 0%nat (Fulfilled (Reply (reply 1 true None)))]
        /\ wait answered !! 1%Z = None
        /\ exists reused,
             run_all
               [CallSendMessage 9%nat
                  (Message.mk 1 REQUEST_WDA (WdaData GET_SCREEN_WIDTH NoArgs))]
               answered = Some reused
             /\ messageId reused = 1%Z
             /\ wait reused !! 1%Z = Some (AwaitRequest 9%nat)
             /\ exists again,
                  run_all
                    [Occurs (SocketMessage (Some (reply 1 false None)))]
                    reused = Some again
                  /\ wait again !! 1%Z = None
                  /\ trace again
                     = trace reused
                         ++ [Settle 9%nat
                               (Fulfilled (Reply (reply 1 false None)))]).
Proof.
  split; [vm_compute; reflexivity |].
  eexists. split; [vm_compute; reflexivity |].
  split; [vm_compute; reflexivity |].
  split; [vm_compute; reflexivity |].
  eexists. split; [vm_compute; reflexivity |].
  split; [vm_compute; reflexivity |].
  split; [vm_compute; reflexivity |].
  eexists. split; [vm_compute; reflexivity |].
  split; vm_compute; reflexivity.
Qed.


Lemma stop_is_idempotent_and_ends_reconnects_witness :
  stopped (stop awaiting_session) = true
  /\ stop (stop awaiting_session) = stop awaiting_session
  /\ stopped awaiting_session = false
  /\ timers awaiting_session = 0
  /\ ws awaiting_session <> Some CONNECTING
  /\ exists st' sfx,
       run_all
         [Occurs SocketClose; Occurs TimerFired; Occurs SocketOpen;
          CallSendMessage 4%nat
            (Message.mk 5 REQUEST_WDA (WdaData GET_SCREEN_WIDTH NoArgs));
          Occurs (Invoke (CallRunWebDriverAgent 1%nat));
          Occurs (Invoke CallStop)]
         (stop awaiting_session) = Some st'
       /\ trace st' = trace (stop awaiting_session) ++ sfx
       /\ (forall e, e ∈ sfx -> is_send e = false)
       /\ ws st' <> Some OPEN
       /\ (forall str,
             sendCommand str st' = set_commands (commands st' ++ [str]) st')
       /\ (forall (message : Message.t Q) (w : Waiter Q),
             trace (sendMessage message w st') = trace st'
             /\ commands (sendMessage message w st')
                = commands st' ++ [JSON_stringify message]).
Proof.
  assert (Hstopped : stopped (stop awaiting_session) = true)
    by (vm_compute; reflexivity).
  assert (Hrunning : stopped awaiting_session = false)
    by (vm_compute; reflexivity).
  assert (Htimers : timers awaiting_session = 0)
    by (vm_compute; reflexivity).
  assert (Hws : ws awaiting_session <> Some CONNECTING)
    by (vm_compute; discriminate).
  split; [exact Hstopped |].
  split.
  { destruct (stop_is_idempotent_and_ends_reconnects (stop awaiting_session))
      as (Hguard & _).
    exact (Hguard Hstopped). }
  split; [exact Hrunning |].
  split; [exact Htimers |].
  split; [exact Hws |].
  destruct (stop_is_idempotent_and_ends_reconnects awaiting_session)
    as (_ & _ & _ & _ & _ & Hfinal).
  exact (Hfinal Hrunning Htimers Hws _).
Defined.
